(** * A shallow embedding of the chat client of [src/App.tsx]

    The component [App] keeps a message log, an input line and a typing
    flag, posts each submitted line to a webhook and, when the webhook
    answers with a job identifier, polls a status endpoint until the job is
    done, fails, or the retry ceiling is passed.

    The embedding follows the source function by function:
    - the React state and the [useRef] cell are fields of [World];
    - an [async] function is cut at its [await fetch(...)]: the part that
      runs before the suspension keeps the source name ([handleSubmit],
      [pollForResponse]); the part that runs when the promise settles is
      the [_resume] function of the same name;
    - [try]/[catch]/[finally] are combinators of a small state-and-exception
      monad, [Handler];
    - the browser (network, timers, the user) is the [Event] that [step]
      consumes; [settle] drives one submit/poll cycle against a [Network].

    React is taken to have rendered every state change before the next
    event is handled, so the [input] and [messages] a handler closes over
    are those of the current state.  An updater given to [setMessages]
    runs, and the new log is rendered, outside the handler that queued it:
    what is thrown there is not caught by the handler's [try].  It is
    recorded in [renderErrors], and React, which finds no error boundary,
    removes the component.  The handlers do not consult [renderErrors]:
    in a world that has one they do what they would do on the mounted
    component. *)

From Stdlib Require Import List NArith ZArith String Ascii Bool Lia.
From Stdlib Require DecimalN.
Import ListNotations.
Open Scope N_scope.

(** ** JavaScript strings *)

Module JsString.

(** A JavaScript string is a sequence of UTF-16 code units. *)
Definition jsstring : Type := list N.

(** A source literal, read as its code units. *)
Definition lit (s : string) : jsstring :=
  map N_of_ascii (list_ascii_of_string s).

Fixpoint eqb (a b : jsstring) : bool :=
  match a, b with
  | [], [] => true
  | x :: a', y :: b' => (x =? y) && eqb a' b'
  | _, _ => false
  end.

Definition isEmpty (s : jsstring) : bool :=
  match s with [] => true | _ :: _ => false end.

(** ECMAScript WhiteSpace and LineTerminator code points, the ones
    [String.prototype.trim] strips. *)
Definition isWhiteSpace (c : N) : bool :=
  (c =? 9) || (c =? 10) || (c =? 11) || (c =? 12) || (c =? 13)
  || (c =? 32) || (c =? 160) || (c =? 5760)
  || ((8192 <=? c) && (c <=? 8202))
  || (c =? 8232) || (c =? 8233) || (c =? 8239) || (c =? 8287)
  || (c =? 12288) || (c =? 65279).

Fixpoint trimStart (s : jsstring) : jsstring :=
  match s with
  | [] => []
  | c :: t => if isWhiteSpace c then trimStart t else s
  end.

Definition trimEnd (s : jsstring) : jsstring := rev (trimStart (rev s)).

(** [s.trim()] *)
Definition trim (s : jsstring) : jsstring := trimEnd (trimStart s).

Fixpoint startsWith (p s : jsstring) : bool :=
  match p, s with
  | [], _ => true
  | _ :: _, [] => false
  | a :: p', b :: s' => (a =? b) && startsWith p' s'
  end.

(** [hay.includes(needle)] *)
Fixpoint includes (needle hay : jsstring) : bool :=
  startsWith needle hay
  || match hay with
     | [] => false
     | _ :: t => includes needle t
     end.

Fixpoint digits (d : Decimal.uint) : jsstring :=
  match d with
  | Decimal.Nil => []
  | Decimal.D0 r => 48 :: digits r
  | Decimal.D1 r => 49 :: digits r
  | Decimal.D2 r => 50 :: digits r
  | Decimal.D3 r => 51 :: digits r
  | Decimal.D4 r => 52 :: digits r
  | Decimal.D5 r => 53 :: digits r
  | Decimal.D6 r => 54 :: digits r
  | Decimal.D7 r => 55 :: digits r
  | Decimal.D8 r => 56 :: digits r
  | Decimal.D9 r => 57 :: digits r
  end.

(** [`${n}`] for a non-negative integer [n]. *)
Definition ofN (n : N) : jsstring := digits (N.to_uint n).

End JsString.
Import JsString.

(** ** Values, messages, responses *)

(** What [response.json()] can resolve to.  An object is the list of its
    own properties as parsed, each key once.  Of a number the code only
    ever asks whether it is zero; the model keeps the integers. *)
#[warnings="-register-all"]
Inductive JValue : Type :=
| JNull
| JBool (b : bool)
| JNumber (z : Z)
| JString (s : jsstring)
| JArray (items : list JValue)
| JObject (props : list (jsstring * JValue)).

(** A thrown value: an [Error] object with its [message], or something
    that is not an instance of [Error]. *)
Inductive JSExn : Type :=
| ErrorObj (message : jsstring)
| NonError.

(** How an evaluation or a promise ends. *)
Inductive Completion (A : Type) : Type :=
| Normal (a : A)
| Throw (e : JSExn).
Arguments Normal {A} a.
Arguments Throw {A} e.

(** [type: 'user' | 'bot'] *)
Inductive MessageType : Type := user | bot.

(** [interface Message].  At run time [content] holds whatever value the
    code stores there; [timestamp] is the instant of [new Date()] in ms. *)
Record Message : Type := mkMessage {
  type : MessageType;
  content : JValue;
  timestamp : N
}.

(** An element of [conversation_history]. *)
Record HistoryEntry : Type := mkHistoryEntry {
  role : jsstring;
  hcontent : JValue
}.

(** The object handed to [JSON.stringify] in [handleSubmit].  [sentAt] is
    the instant that [toISOString] renders. *)
Record RequestBody : Type := mkRequestBody {
  message : jsstring;
  sentAt : N;
  conversation_history : list HistoryEntry
}.

(** The two calls of [fetch]: the POST to the webhook, and the GET of
    [.../status/${messageId}] (the model keeps the interpolated value). *)
Inductive Request : Type :=
| PostMessage (body : RequestBody)
| GetStatus (messageId : JValue).

(** A [Response]: its status, its [Content-Type] header ([None] when
    [headers.get] returns [null]) and what reading the body gives. *)
Record Response : Type := mkResponse {
  status : N;
  contentType : option jsstring;
  text : Completion jsstring;
  json : Completion JValue
}.

(** [response.ok] *)
Definition ok (r : Response) : bool :=
  (200 <=? status r) && (status r <=? 299).

Definition FetchResult : Type := Completion Response.

(** ** Property reads and truthiness *)

Fixpoint getOwn (k : jsstring) (props : list (jsstring * JValue))
  : option JValue :=
  match props with
  | [] => None
  | (k', v) :: rest => if JsString.eqb k k' then Some v else getOwn k rest
  end.

(** The text of the [TypeError] raised by reading property [k] of [null].
    The wording is the engine's (here V8's); no engine words it as one of
    the texts of the source. *)
Definition nullReadMessage (k : jsstring) : jsstring :=
  lit "Cannot read properties of null (reading '" ++ k ++ lit "')".

(** [v.k] for the property names the source reads ([messageId],
    [response], [content]), none of which a primitive or an array has:
    [None] is [undefined]; reading a property of [null] throws. *)
Definition getProp (v : JValue) (k : jsstring) : Completion (option JValue) :=
  match v with
  | JNull => Throw (ErrorObj (nullReadMessage k))
  | JObject props => Normal (getOwn k props)
  | _ => Normal None
  end.

(** The value of field [k] of a parsed body, when the body is an object
    that has the field. *)
Definition field (v : JValue) (k : jsstring) : option JValue :=
  match v with
  | JObject props => getOwn k props
  | _ => None
  end.

(** [v?.k] where [v] may be [undefined]. *)
Definition optChain (v : option JValue) (k : jsstring) : option JValue :=
  match v with
  | None | Some JNull => None
  | Some (JObject props) => getOwn k props
  | Some _ => None
  end.

(** ToBoolean; [None] is [undefined]. *)
Definition truthy (v : option JValue) : bool :=
  match v with
  | None => false
  | Some JNull => false
  | Some (JBool b) => b
  | Some (JNumber z) => negb (z =? 0)%Z
  | Some (JString s) => negb (isEmpty s)
  | Some (JArray _) => true
  | Some (JObject _) => true
  end.

(** [v || d] *)
Definition orElse (v : option JValue) (d : JValue) : JValue :=
  match v with
  | Some x => if truthy v then x else d
  | None => d
  end.

(** Whether [`${v}`] yields a string.  A parsed object is converted by
    [Object.prototype.toString] unless it has a property [toString] of
    its own, which, coming from JSON, is not callable: [valueOf] then
    gives the object back and the conversion throws.  An array is joined,
    each element converted in turn ([null] as the empty string). *)
Fixpoint stringifiable (v : JValue) : bool :=
  match v with
  | JArray items => forallb stringifiable items
  | JObject props =>
      match getOwn (lit "toString") props with
      | Some _ => false
      | None => true
      end
  | _ => true
  end.

(** The [TypeError] of a failed conversion (V8's wording). *)
Definition cannotConvert : JSExn :=
  ErrorObj (lit "Cannot convert object to primitive value").

(** Whether React can render [{v}] as a child: text for a string or a
    number, nothing for [null] and the booleans, the elements in turn for
    an array; a plain object is refused. *)
Fixpoint renderable (v : JValue) : bool :=
  match v with
  | JObject _ => false
  | JArray items => forallb renderable items
  | _ => true
  end.

(** The error React throws for a child it refuses (its text goes on to
    name the keys of the object). *)
Definition invalidChild : JSExn :=
  ErrorObj (lit "Objects are not valid as a React child").

(** ** The world: React state, the ref cell, and the browser's queues *)

(** A pending [setTimeout(() => pollForResponse(messageId, retries + 1), ms)]:
    [tRetries] is the second argument of the call the callback makes. *)
Record Timer : Type := mkTimer {
  timerId : nat;
  due : N;
  tMessageId : JValue;
  tRetries : N
}.

(** Which [async] function is suspended at its [await fetch(...)], with
    the variables its remainder reads. *)
Inductive Continuation : Type :=
| SubmitK
| PollK (messageId : JValue) (retries : N).

Record Suspended : Type := mkSuspended {
  request : Request;
  resume : Continuation
}.

Record World : Type := mkWorld {
  messages : list Message;          (* useState<Message[]> *)
  input : jsstring;                 (* useState('') *)
  isTyping : bool;                  (* useState(false) *)
  pollTimeoutRef : option nat;      (* useRef<NodeJS.Timeout>() *)
  timers : list Timer;              (* callbacks not yet run or cleared *)
  nextTimerId : nat;
  inflight : list Suspended;          (* fetches not yet settled *)
  issued : list Request;            (* every fetch made, oldest first *)
  delays : list N;                  (* every setTimeout delay, oldest first *)
  consoleErrors : list JSExn;       (* console.error *)
  unhandled : list JSExn;           (* rejections nobody handled *)
  now : N;                          (* the clock, in ms *)
  renderErrors : list JSExn         (* errors thrown while React renders *)
}.

Definition with_messages (v : list Message) (w : World) : World :=
  mkWorld v (input w) (isTyping w) (pollTimeoutRef w) (timers w)
    (nextTimerId w) (inflight w) (issued w) (delays w) (consoleErrors w)
    (unhandled w) (now w) (renderErrors w).

Definition with_input (v : jsstring) (w : World) : World :=
  mkWorld (messages w) v (isTyping w) (pollTimeoutRef w) (timers w)
    (nextTimerId w) (inflight w) (issued w) (delays w) (consoleErrors w)
    (unhandled w) (now w) (renderErrors w).

Definition with_isTyping (v : bool) (w : World) : World :=
  mkWorld (messages w) (input w) v (pollTimeoutRef w) (timers w)
    (nextTimerId w) (inflight w) (issued w) (delays w) (consoleErrors w)
    (unhandled w) (now w) (renderErrors w).

Definition with_timers (v : list Timer) (w : World) : World :=
  mkWorld (messages w) (input w) (isTyping w) (pollTimeoutRef w) v
    (nextTimerId w) (inflight w) (issued w) (delays w) (consoleErrors w)
    (unhandled w) (now w) (renderErrors w).

Definition with_inflight (v : list Suspended) (w : World) : World :=
  mkWorld (messages w) (input w) (isTyping w) (pollTimeoutRef w) (timers w)
    (nextTimerId w) v (issued w) (delays w) (consoleErrors w)
    (unhandled w) (now w) (renderErrors w).

Definition with_consoleErrors (v : list JSExn) (w : World) : World :=
  mkWorld (messages w) (input w) (isTyping w) (pollTimeoutRef w) (timers w)
    (nextTimerId w) (inflight w) (issued w) (delays w) v
    (unhandled w) (now w) (renderErrors w).

Definition with_unhandled (v : list JSExn) (w : World) : World :=
  mkWorld (messages w) (input w) (isTyping w) (pollTimeoutRef w) (timers w)
    (nextTimerId w) (inflight w) (issued w) (delays w) (consoleErrors w)
    v (now w) (renderErrors w).

Definition with_now (v : N) (w : World) : World :=
  mkWorld (messages w) (input w) (isTyping w) (pollTimeoutRef w) (timers w)
    (nextTimerId w) (inflight w) (issued w) (delays w) (consoleErrors w)
    (unhandled w) v (renderErrors w).

Definition with_renderErrors (v : list JSExn) (w : World) : World :=
  mkWorld (messages w) (input w) (isTyping w) (pollTimeoutRef w) (timers w)
    (nextTimerId w) (inflight w) (issued w) (delays w) (consoleErrors w)
    (unhandled w) (now w) v.

(** ** The handler monad: state and exceptions *)

Definition Handler (A : Type) : Type := World -> World * Completion A.

Definition ret {A : Type} (a : A) : Handler A := fun w => (w, Normal a).

Definition bind {A B : Type} (m : Handler A) (k : A -> Handler B)
  : Handler B :=
  fun w =>
    match m w with
    | (w', Normal a) => k a w'
    | (w', Throw e) => (w', Throw e)
    end.

Definition throw {A : Type} (e : JSExn) : Handler A :=
  fun w => (w, Throw e).

(** [await p] for a promise that has settled as [c]; also the value or the
    exception of a synchronous evaluation. *)
Definition await {A : Type} (c : Completion A) : Handler A :=
  fun w => (w, c).

Definition tryCatch {A : Type} (body : Handler A) (handler : JSExn -> Handler A)
  : Handler A :=
  fun w =>
    match body w with
    | (w', Throw e) => handler e w'
    | done => done
    end.

(** [try { body } finally { fin }]: [fin] runs however [body] ends, also on
    a [return] inside it. *)
Definition tryFinally {A : Type} (body : Handler A) (fin : Handler unit)
  : Handler A :=
  fun w =>
    match body w with
    | (w', c) =>
        match fin w' with
        | (w'', Normal _) => (w'', c)
        | (w'', Throw e) => (w'', Throw e)
        end
    end.

Definition get : Handler World := fun w => (w, Normal w).

Definition modify (f : World -> World) : Handler unit :=
  fun w => (f w, Normal tt).

Declare Scope handler_scope.
Delimit Scope handler_scope with handler.
Notation "x <- m ;; k" := (bind m (fun x => k))
  (at level 61, m at next level, right associativity) : handler_scope.
Notation "m ;; k" := (bind m (fun _ => k))
  (at level 61, right associativity) : handler_scope.
Open Scope handler_scope.

(** ** Browser and React primitives *)

(** [new Date()] *)
Definition newDate : Handler N := fun w => (w, Normal (now w)).

(** [clearTimeout(id)] *)
Definition clearTimeout (id : nat) : Handler unit :=
  modify (fun w =>
    with_timers (filter (fun t => negb (Nat.eqb (timerId t) id)) (timers w)) w).

(** The cleanup of the [useEffect] that depends on [messages]: React runs
    it when [messages] has changed.
    [if (pollTimeoutRef.current) clearTimeout(pollTimeoutRef.current)];
    a timer id is truthy unless it is [0]. *)
Definition effectCleanup : Handler unit :=
  w <- get ;;
  match pollTimeoutRef w with
  | Some id => if Nat.eqb id 0 then ret tt else clearTimeout id
  | None => ret tt
  end.

(** An error thrown while React renders.  No error boundary of the source
    catches it: React records it and removes the component, which runs the
    effect cleanup.  The update being rendered is not committed. *)
Definition renderFailure (e : JSExn) : Handler unit :=
  modify (fun w => with_renderErrors (renderErrors w ++ [e]) w) ;;
  effectCleanup.

(** [setMessages(prev => [...prev, m])], the form of every call in the
    source; [m] is how the evaluation of the new element ends.  The call
    itself only queues the updater: React runs it, and renders the new
    log, later and outside any [try] of the caller.  An updater that
    throws, or a new element whose content cannot be rendered, is a
    render failure.  Otherwise the element is appended, and the change of
    [messages] triggers the effect cleanup.  The elements already in the
    log have been rendered before and are not looked at again. *)
Definition setMessages (m : Completion Message) : Handler unit :=
  match m with
  | Throw e => renderFailure e
  | Normal msg =>
      if renderable (content msg) then
        modify (fun w => with_messages (messages w ++ [msg]) w) ;;
        effectCleanup
      else renderFailure invalidChild
  end.

Definition setInput (v : jsstring) : Handler unit := modify (with_input v).

Definition setIsTyping (v : bool) : Handler unit := modify (with_isTyping v).

(** [console.error(..., error)] *)
Definition consoleError (e : JSExn) : Handler unit :=
  modify (fun w => with_consoleErrors (consoleErrors w ++ [e]) w).

(** [pollTimeoutRef.current = setTimeout(() => pollForResponse(messageId,
    retries), ms)] *)
Definition setPollTimeout (messageId : JValue) (retries : N) (ms : N)
  : Handler unit :=
  modify (fun w =>
    mkWorld (messages w) (input w) (isTyping w)
      (Some (nextTimerId w))
      (timers w ++ [mkTimer (nextTimerId w) (now w + ms) messageId retries])
      (S (nextTimerId w)) (inflight w) (issued w) (delays w ++ [ms])
      (consoleErrors w) (unhandled w) (now w) (renderErrors w)).

(** [await fetch(req)]: the request goes out and the caller is suspended
    until [Settle] hands its continuation [k] the outcome. *)
Definition fetch (req : Request) (k : Continuation) : Handler unit :=
  modify (fun w =>
    mkWorld (messages w) (input w) (isTyping w) (pollTimeoutRef w)
      (timers w) (nextTimerId w) (inflight w ++ [mkSuspended req k])
      (issued w ++ [req]) (delays w) (consoleErrors w) (unhandled w)
      (now w) (renderErrors w)).

(** Running an [async] function whose promise nobody awaits: what it
    throws becomes an unhandled rejection, the caller goes on. *)
Definition runTop (h : Handler unit) (w : World) : World :=
  match h w with
  | (w', Normal _) => w'
  | (w', Throw e) => with_unhandled (unhandled w' ++ [e]) w'
  end.

Definition callAsync (h : Handler unit) : Handler unit :=
  fun w => (runTop h w, Normal tt).

(** ** The texts of the source *)

Definition greetingText : jsstring :=
  lit "Hi! I'm MetaJungkok, powered by Jhunpaul. How can I help you today?".
Definition timeoutText : jsstring :=
  lit "I apologize, but I didn't receive a response in time. Please try again.".
Definition fallbackText : jsstring :=
  lit "I apologize, but I couldn't understand your request.".
Definition pollErrorText : jsstring :=
  lit "I apologize, but I encountered an error while processing your request.".
Definition noMessageIdText : jsstring :=
  lit "No messageId received in the response".
Definition unexpectedText : jsstring :=
  lit "An unexpected error occurred. Please try again later.".
Definition applicationJson : jsstring := lit "application/json".

(** [response.headers.get('Content-Type') || ''] *)
Definition contentTypeOf (r : Response) : jsstring :=
  match contentType r with
  | Some s => s
  | None => []
  end.

(** The [switch (response.status)] of [handleSubmit]. *)
Definition statusReason (st : N) : jsstring :=
  if st =? 400 then lit "Invalid request format"
  else if st =? 401 then lit "Unauthorized access"
  else if st =? 403 then lit "Access forbidden"
  else if st =? 429 then lit "Too many requests, please try again later"
  else if st =? 500 then lit "Internal server error"
  else lit "Unexpected error occurred".

(** [errorMessage] as thrown by [handleSubmit]. *)
Definition errorMessage (st : N) : jsstring :=
  lit "Server error (Status " ++ ofN st ++ lit "): " ++ statusReason st.

(** [error instanceof Error ? error.message : "An unexpected ..."] *)
Definition describe (e : JSExn) : jsstring :=
  match e with
  | ErrorObj m => m
  | NonError => unexpectedText
  end.

(** The element [messages.map] builds for [conversation_history]. *)
Definition toHistory (msg : Message) : HistoryEntry :=
  mkHistoryEntry
    (match type msg with user => lit "user" | bot => lit "assistant" end)
    (content msg).

(** [setMessages(prev => [...prev, { type: 'bot', content: c,
    timestamp: new Date() }])] where the evaluation of [c], inside the
    updater, ends as [c]. *)
Definition appendBotLazy (c : Completion JValue) : Handler unit :=
  t <- newDate ;;
  setMessages
    (match c with
     | Normal v => Normal (mkMessage bot v t)
     | Throw e => Throw e
     end).

(** The same for a content that is a value already. *)
Definition appendBot (c : JValue) : Handler unit := appendBotLazy (Normal c).

(** The [catch] block of [pollForResponse]. *)
Definition pollForResponse_catch (error : JSExn) : Handler unit :=
  consoleError error ;;
  appendBot (JString pollErrorText).

(** ** [pollForResponse] *)

(** [pollForResponse(messageId, retries)] up to its [await fetch].  The
    URL template converts [messageId] inside the [try]: a conversion that
    throws is caught there, and the [finally] block runs; otherwise the
    query goes out and the function is suspended. *)
Definition pollForResponse (messageId : JValue) (retries : N) : Handler unit :=
  if 30 <? retries then
    appendBot (JString timeoutText) ;;
    setIsTyping false
  else if stringifiable messageId then
    fetch (GetStatus messageId) (PollK messageId retries)
  else
    pollForResponse_catch cannotConvert ;;
    setIsTyping false.

(** [responseData.response?.content || "I apologize, ..."], the
    expression that the updater of [pollForResponse] evaluates. *)
Definition replyContent (responseData : JValue) : Completion JValue :=
  match getProp responseData (lit "response") with
  | Normal r => Normal (orElse (optChain r (lit "content"))
                               (JString fallbackText))
  | Throw e => Throw e
  end.

(** The [try] block of [pollForResponse] from the point where [fetch] has
    settled as [result]. *)
Definition pollForResponse_try (messageId : JValue) (retries : N)
  (result : FetchResult) : Handler unit :=
  response <- await result ;;
  if status response =? 202 then
    setPollTimeout messageId (retries + 1) 1000
  else
    responseData <-
      (if includes applicationJson (contentTypeOf response) then
         await (json response)
       else
         textResponse <- await (text response) ;;
         ret (JObject [(lit "response",
                        JObject [(lit "content", JString textResponse)])])) ;;
    appendBotLazy (replyContent responseData).

(** The rest of [pollForResponse]: [try], [catch], [finally]. *)
Definition pollForResponse_resume (messageId : JValue) (retries : N)
  (result : FetchResult) : Handler unit :=
  tryFinally
    (tryCatch
       (pollForResponse_try messageId retries result)
       pollForResponse_catch)
    (setIsTyping false).

(** ** [handleSubmit] *)

(** [handleSubmit(e)] up to its [await fetch]; [input] and [messages] are
    the values of the render the handler closes over. *)
Definition handleSubmit : Handler unit :=
  w0 <- get ;;
  if isEmpty (trim (input w0)) then ret tt
  else
    t <- newDate ;;
    setMessages (Normal (mkMessage user (JString (input w0)) t)) ;;
    setInput [] ;;
    setIsTyping true ;;
    sent <- newDate ;;
    fetch (PostMessage
             (mkRequestBody (input w0) sent (map toHistory (messages w0))))
          SubmitK.

(** The [try] block of [handleSubmit] from the point where [fetch] has
    settled as [result].  The assignment to [data] in the plain-text branch
    is never read and is left out. *)
Definition handleSubmit_try (result : FetchResult) : Handler unit :=
  response <- await result ;;
  if ok response then
    if includes applicationJson (contentTypeOf response) then
      data <- await (json response) ;;
      messageId <- await (getProp data (lit "messageId")) ;;
      match messageId with
      | Some id =>
          if truthy messageId then callAsync (pollForResponse id 0)
          else throw (ErrorObj noMessageIdText)
      | None => throw (ErrorObj noMessageIdText)
      end
    else
      textResponse <- await (text response) ;;
      appendBot (JString textResponse) ;;
      setIsTyping false
  else
    throw (ErrorObj (errorMessage (status response))).

(** The rest of [handleSubmit]: [try] and [catch]. *)
Definition handleSubmit_resume (result : FetchResult) : Handler unit :=
  tryCatch
    (handleSubmit_try result)
    (fun error =>
       consoleError error ;;
       appendBot (JString (describe error)) ;;
       setIsTyping false).

(** ** The event loop *)

Inductive Event : Type :=
| Change (value : jsstring)             (* onChange: setInput(e.target.value) *)
| Submit                                (* onSubmit: handleSubmit *)
| Settle (i : nat) (result : FetchResult) (* the i-th pending fetch settles *)
| Fire (id : nat)                       (* a timer callback runs *)
| Elapse (dt : N).                      (* time passes *)

Definition removeNth {A : Type} (i : nat) (l : list A) : list A :=
  firstn i l ++ skipn (S i) l.

Definition continue (k : Continuation) (result : FetchResult) : Handler unit :=
  match k with
  | SubmitK => handleSubmit_resume result
  | PollK messageId retries => pollForResponse_resume messageId retries result
  end.

Definition step (w : World) (ev : Event) : World :=
  match ev with
  | Change value => runTop (setInput value) w
  | Submit => runTop handleSubmit w
  | Settle i result =>
      match nth_error (inflight w) i with
      | Some p =>
          runTop (continue (resume p) result)
                 (with_inflight (removeNth i (inflight w)) w)
      | None => w
      end
  | Fire id =>
      match find (fun t => Nat.eqb (timerId t) id) (timers w) with
      | Some t =>
          runTop (pollForResponse (tMessageId t) (tRetries t))
                 (with_now (N.max (now w) (due t))
                    (with_timers
                       (filter (fun t' => negb (Nat.eqb (timerId t') id))
                               (timers w)) w))
      | None => w
      end
  | Elapse dt => with_now (now w + dt) w
  end.

Definition run (w : World) (evs : list Event) : World :=
  fold_left step evs w.

(** The state after the first render; [t0] is the instant of the mount. *)
Definition initialWorld (t0 : N) : World :=
  mkWorld [mkMessage bot (JString greetingText) t0] [] false None
          [] 1 [] [] [] [] [] t0 [].

(** ** One cycle against a network *)

(** The server side: how a fetch settles and how long that takes, given
    every request made so far (the one being answered is the last). *)
Record Network : Type := mkNetwork {
  answer : list Request -> FetchResult;
  latency : list Request -> N
}.

(** Nothing is suspended and no timer is pending. *)
Definition quiescent (w : World) : bool :=
  match inflight w, timers w with
  | [], [] => true
  | _, _ => false
  end.

(** Let the browser run until nothing is left to do: a pending fetch
    settles as the network says, after the time the network takes;
    otherwise the oldest timer fires.  [None] when [fuel] rounds were not
    enough. *)
Fixpoint settle (net : Network) (fuel : nat) (w : World) : option World :=
  match inflight w, timers w with
  | [], [] => Some w
  | _ :: _, _ =>
      match fuel with
      | O => None
      | S fuel' =>
          settle net fuel'
            (step (step w (Elapse (latency net (issued w))))
                  (Settle 0 (answer net (issued w))))
      end
  | [], t :: _ =>
      match fuel with
      | O => None
      | S fuel' => settle net fuel' (step w (Fire (timerId t)))
      end
  end.

(** The request [handleSubmit] sends from [w]. *)
Definition submission (w : World) : Request :=
  PostMessage (mkRequestBody (input w) (now w) (map toHistory (messages w))).

(** The instant at which the answer to the submission made from [w]
    arrives. *)
Definition answeredAt (net : Network) (w : World) : N :=
  now w + latency net (issued w ++ [submission w]).

(** React has met no render failure: the component is on the page. *)
Definition mounted (w : World) : bool :=
  match renderErrors w with
  | [] => true
  | _ :: _ => false
  end.

(** Every message of the log can be rendered. *)
Definition presentable (w : World) : Prop :=
  Forall (fun m => renderable (content m) = true) (messages w).

(** From [w0] the browser comes to rest in [w'] within [n] steps. *)
Definition ends_within (net : Network) (n : nat) (w0 w' : World) : Prop :=
  forall fuel, (n <= fuel)%nat -> settle net fuel w0 = Some w'.

(** The number of status queries made so far. *)
Definition pollAttempts (w : World) : nat :=
  List.length (filter (fun r => match r with GetStatus _ => true | _ => false end)
                 (issued w)).

(** ** The logs, the outcomes and the worlds the proofs speak of *)

(** [w'] has the messages and the requests of [w], and possibly more after
    them. *)
Definition grows (w w' : World) : Prop :=
  (exists more, messages w' = messages w ++ more)
  /\ (exists more, issued w' = issued w ++ more).

(** A handler that, from any world, only adds to the logs. *)
Definition Growing {A : Type} (h : Handler A) : Prop :=
  forall w, grows w (fst (h w)).

(** The timers that survive [effectCleanup]. *)
Definition clearedTimers (ref : option nat) (ts : list Timer) : list Timer :=
  match ref with
  | Some id =>
      if Nat.eqb id 0 then ts
      else filter (fun t => negb (Nat.eqb (timerId t) id)) ts
  | None => ts
  end.

Arguments clearedTimers : simpl never.

(** The three ways the [try] block of [handleSubmit] can leave, under the
    names the specification gives them. *)
Inductive SubmissionResult : Type :=
| ImmediateReply (textResponse : jsstring)
| Deferred (messageId : JValue)
| Failure (error : JSExn).

(** How the [try] block of [handleSubmit] leaves, read off the settled
    fetch. *)
Definition submissionResult (result : FetchResult) : SubmissionResult :=
  match result with
  | Throw e => Failure e
  | Normal response =>
      if ok response then
        if includes applicationJson (contentTypeOf response) then
          match json response with
          | Throw e => Failure e
          | Normal data =>
              match getProp data (lit "messageId") with
              | Throw e => Failure e
              | Normal (Some id) =>
                  if truthy (Some id) then Deferred id
                  else Failure (ErrorObj noMessageIdText)
              | Normal None => Failure (ErrorObj noMessageIdText)
              end
          end
        else
          match text response with
          | Throw e => Failure e
          | Normal textResponse => ImmediateReply textResponse
          end
      else Failure (ErrorObj (errorMessage (status response)))
  end.

(** The world after a bot message with content [c], appended and
    rendered, and the console lines [errs], end a cycle. *)
Definition replied (c : JValue) (errs : list JSExn) (rest : list Suspended)
  (w : World) : World :=
  mkWorld (messages w ++ [mkMessage bot c (now w)]) (input w) false
    (pollTimeoutRef w) (clearedTimers (pollTimeoutRef w) (timers w))
    (nextTimerId w) rest (issued w) (delays w) (consoleErrors w ++ errs)
    (unhandled w) (now w) (renderErrors w).

(** The world after [pollForResponse(id, n)] has sent its status query. *)
Definition polling (id : JValue) (n : N) (rest : list Suspended) (w : World)
  : World :=
  mkWorld (messages w) (input w) (isTyping w) (pollTimeoutRef w) (timers w)
    (nextTimerId w) (rest ++ [mkSuspended (GetStatus id) (PollK id n)])
    (issued w ++ [GetStatus id]) (delays w) (consoleErrors w) (unhandled w)
    (now w) (renderErrors w).

(** The world after [pollForResponse(id, n)], [n <= 30], has run up to
    its suspension or, when [id] cannot be put into the URL, through its
    [catch] and [finally]. *)
Definition started (id : JValue) (n : N) (rest : list Suspended) (w : World)
  : World :=
  if stringifiable id then polling id n rest w
  else replied (JString pollErrorText) [cannotConvert] rest w.

(** A world in which React has met the render failure [e] instead of
    appending a bot message: the log is as it was, the cleanup has run. *)
Definition torn (e : JSExn) (errs : list JSExn) (rest : list Suspended)
  (w : World) : World :=
  mkWorld (messages w) (input w) false
    (pollTimeoutRef w) (clearedTimers (pollTimeoutRef w) (timers w))
    (nextTimerId w) rest (issued w) (delays w) (consoleErrors w ++ errs)
    (unhandled w) (now w) (renderErrors w ++ [e]).

(** The world after [setMessages] was called with a bot message whose
    content evaluates as [c]: [replied] when React can append and render
    it, [torn] otherwise. *)
Definition answered (c : Completion JValue) (errs : list JSExn)
  (rest : list Suspended) (w : World) : World :=
  match c with
  | Normal v =>
      if renderable v then replied v errs rest w
      else torn invalidChild errs rest w
  | Throw e => torn e errs rest w
  end.

(** The three ways the [try] block of [pollForResponse] can leave, under
    the names the specification gives them.  [Ready] carries how the
    evaluation of the reply content, which is left to the updater, will
    end. *)
Inductive PollOutcome : Type :=
| Pending
| Ready (content : Completion JValue)
| PollFailure (error : JSExn).

(** [responseData] of [pollForResponse]: the parsed body, or the text
    wrapped as [{ response: { content: textResponse } }]. *)
Definition responseDataOf (response : Response) : Completion JValue :=
  if includes applicationJson (contentTypeOf response) then json response
  else
    match text response with
    | Normal textResponse =>
        Normal (JObject [(lit "response",
                          JObject [(lit "content", JString textResponse)])])
    | Throw e => Throw e
    end.

(** How the [try] block of [pollForResponse] leaves, read off the settled
    fetch. *)
Definition pollOutcome (result : FetchResult) : PollOutcome :=
  match result with
  | Throw e => PollFailure e
  | Normal response =>
      if status response =? 202 then Pending
      else
        match responseDataOf response with
        | Throw e => PollFailure e
        | Normal responseData => Ready (replyContent responseData)
        end
  end.

(** The world after a status query found the job in progress: the retry
    is scheduled and the [finally] block has run. *)
Definition waiting (id : JValue) (n : N) (rest : list Suspended) (w : World)
  : World :=
  mkWorld (messages w) (input w) false (Some (nextTimerId w))
    (timers w ++ [mkTimer (nextTimerId w) (now w + 1000) id (n + 1)])
    (S (nextTimerId w)) rest (issued w) (delays w ++ [1000])
    (consoleErrors w) (unhandled w) (now w) (renderErrors w).

(** The world in which the retry timer set by [waiting id n [] w] has just
    run out. *)
Definition retryDue (id : JValue) (n : N) (w : World) : World :=
  with_now (N.max (now w) (now w + 1000))
           (with_timers [] (waiting id n [] w)).

(** ** Sample worlds and networks *)

(** The world after the user has typed [s] into a fresh page. *)
Definition typed (s : jsstring) : World :=
  step (initialWorld 0) (Change s).

(** A server that answers every request with [r]. *)
Definition answering (r : Response) : Network :=
  mkNetwork (fun _ => Normal r) (fun _ => 120).

(** A network that is down. *)
Definition unreachable : Network :=
  mkNetwork (fun _ => Throw (ErrorObj (lit "Failed to fetch"))) (fun _ => 5).

Definition notJson : Completion JValue :=
  Throw (ErrorObj (lit "Unexpected token in JSON")).

Definition plainReply : Response :=
  mkResponse 200 (Some (lit "text/plain; charset=utf-8"))
             (Normal (lit "Hello!")) notJson.

Definition rateLimited : Response :=
  mkResponse 429 (Some (lit "text/plain")) (Normal (lit "Too Many Requests"))
             notJson.

Definition emptyObject : Response :=
  mkResponse 200 (Some (lit "application/json; charset=utf-8"))
             (Normal (lit "{}")) (Normal (JObject [])).

Definition nullBody : Response :=
  mkResponse 200 (Some applicationJson) (Normal (lit "null")) (Normal JNull).

Definition inProgress : Response :=
  mkResponse 202 (Some (lit "text/plain")) (Normal (lit "Accepted")) notJson.

Definition job1 : JValue := JString (lit "job-1").

Definition accepted : Response :=
  mkResponse 200 (Some applicationJson) (Normal [])
             (Normal (JObject [(lit "messageId", job1)])).

(** The user said "hi", the webhook answered with a job id, and the first
    status query is on its way. *)
Definition pollingWorld : World :=
  run (initialWorld 0) [Change (lit "hi"); Submit; Settle 0 (Normal accepted)].

(** ** The view *)

(** [disabled={!input.trim()}] on the send button. *)
Definition sendDisabled (w : World) : bool := isEmpty (trim (input w)).

(** ** Counting *)

(** The user messages in the log. *)
Definition userMessages (w : World) : nat :=
  List.length
    (filter (fun m => match type m with user => true | bot => false end)
            (messages w)).

(** The POSTs made so far. *)
Definition submissions (w : World) : nat :=
  List.length
    (filter (fun r => match r with PostMessage _ => true | _ => false end)
            (issued w)).

(** The code units of the decimal digits. *)
Definition isDigit (c : N) : bool := (48 <=? c) && (c <=? 57).

(** The bot messages in the log. *)
Definition botMessages (w : World) : nat :=
  List.length
    (filter (fun m => match type m with bot => true | user => false end)
            (messages w)).

(** What is still owed an answer: the fetches in flight and the timers
    pending. *)
Definition outstanding (w : World) : nat :=
  (List.length (inflight w) + List.length (timers w))%nat.

(** ** More sample worlds and networks *)

(** The status queries in a log. *)
Definition countPolls (log : list Request) : nat :=
  List.length
    (filter (fun r => match r with GetStatus _ => true | _ => false end) log).

(** A server that accepts the message, says "in progress" to the first
    [j] status queries and settles every later one as [final]. *)
Definition scripted (j : nat) (final : FetchResult) : Network :=
  mkNetwork
    (fun log =>
       match last log (GetStatus JNull) with
       | PostMessage _ => Normal accepted
       | GetStatus _ =>
           if Nat.leb (countPolls log) j then Normal inProgress else final
       end)
    (fun _ => 120).

Definition finished : Response :=
  mkResponse 200 (Some applicationJson) (Normal [])
    (Normal (JObject [(lit "response",
                       JObject [(lit "content", JString (lit "Hello!"))])])).

Definition emptyJobId : Response :=
  mkResponse 200 (Some applicationJson) (Normal [])
             (Normal (JObject [(lit "messageId", JString [])])).

Definition serviceUnavailable : Response :=
  mkResponse 503 (Some (lit "text/plain")) (Normal (lit "Service Unavailable"))
             notJson.

(** A server that accepts the message and answers the first status query
    with the JSON body [null]. *)
Definition nullStatus : Network := scripted 0 (Normal nullBody).

(** A job identifier that cannot be written into a URL. *)
Definition badJob : JValue := JObject [(lit "toString", JNumber 1)].

Definition acceptedBadJob : Response :=
  mkResponse 200 (Some applicationJson) (Normal [])
             (Normal (JObject [(lit "messageId", badJob)])).

(** A final status answer whose content is an object. *)
Definition objectContent : JValue :=
  JObject [(lit "text", JString (lit "Hello!"))].

Definition finishedObject : Response :=
  mkResponse 200 (Some applicationJson) (Normal [])
    (Normal (JObject [(lit "response",
                       JObject [(lit "content", objectContent)])])).

(** The first status query was answered "in progress"; the retry timer is
    pending and the user has typed again. *)
Definition retryingWorld : World :=
  run pollingWorld [Settle 0 (Normal inProgress); Change (lit "again")].

(** * Properties *)

(** ** Strings *)

Lemma trimStart_whitespace (s : jsstring) :
  Forall (fun c => isWhiteSpace c = true) s -> trimStart s = [].
Proof.
  induction 1 as [| c t Hc _ IH]; simpl.
  - reflexivity.
  - rewrite Hc. exact IH.
Qed.

Lemma trim_whitespace (s : jsstring) :
  Forall (fun c => isWhiteSpace c = true) s -> trim s = [].
Proof.
  intros H. unfold trim, trimEnd.
  rewrite (trimStart_whitespace s H). reflexivity.
Qed.

(** ** The driver *)

Lemma settle_done (net : Network) (fuel : nat) (w : World) :
  inflight w = [] -> timers w = [] -> settle net fuel w = Some w.
Proof.
  intros Hi Ht. destruct fuel; simpl; rewrite Hi, Ht; reflexivity.
Qed.

Lemma settle_fetch (net : Network) (fuel : nat) (w : World) p rest :
  inflight w = p :: rest ->
  settle net (S fuel) w =
  settle net fuel
    (step (with_now (now w + latency net (issued w)) w)
          (Settle 0 (answer net (issued w)))).
Proof.
  intros Hi. simpl. rewrite Hi. reflexivity.
Qed.

Lemma settle_timer (net : Network) (fuel : nat) (w : World) t rest :
  inflight w = [] -> timers w = t :: rest ->
  settle net (S fuel) w = settle net fuel (step w (Fire (timerId t))).
Proof.
  intros Hi Ht. simpl. rewrite Hi, Ht. reflexivity.
Qed.

(** More fuel never changes where a cycle ends. *)
Lemma settle_more_fuel (net : Network) (fuel : nat) :
  forall w w', settle net fuel w = Some w' ->
  forall extra, settle net (fuel + extra) w = Some w'.
Proof.
  induction fuel as [| fuel IH]; intros w w' H extra.
  - simpl in H.
    destruct (inflight w) eqn:Hi; [destruct (timers w) eqn:Ht |];
      try discriminate.
    injection H as <-. apply settle_done; assumption.
  - simpl in H. simpl.
    destruct (inflight w) eqn:Hi; [destruct (timers w) eqn:Ht |].
    + exact H.
    + apply IH. exact H.
    + apply IH. exact H.
Qed.

Lemma settle_enough (net : Network) (n : nat) (w w' : World) :
  settle net n w = Some w' ->
  forall fuel, (n <= fuel)%nat -> settle net fuel w = Some w'.
Proof.
  intros H fuel Hle.
  replace fuel with (n + (fuel - n))%nat by lia.
  apply settle_more_fuel. exact H.
Qed.

(** ** Both logs only grow *)

Lemma grows_refl (w : World) : grows w w.
Proof.
  split; exists []; rewrite app_nil_r; reflexivity.
Qed.

Lemma grows_same (w w' : World) :
  messages w' = messages w -> issued w' = issued w -> grows w w'.
Proof.
  intros Hm Hr. split; exists []; rewrite app_nil_r; assumption.
Qed.

Lemma grows_trans (a b c : World) : grows a b -> grows b c -> grows a c.
Proof.
  intros [[m1 Hm1] [r1 Hr1]] [[m2 Hm2] [r2 Hr2]]. split.
  - exists (m1 ++ m2). rewrite Hm2, Hm1, app_assoc. reflexivity.
  - exists (r1 ++ r2). rewrite Hr2, Hr1, app_assoc. reflexivity.
Qed.

Lemma Growing_ret {A : Type} (a : A) : Growing (ret a).
Proof. intros w. apply grows_refl. Qed.

Lemma Growing_throw {A : Type} (e : JSExn) : Growing (@throw A e).
Proof. intros w. apply grows_refl. Qed.

Lemma Growing_await {A : Type} (c : Completion A) : Growing (await c).
Proof. intros w. apply grows_refl. Qed.

Lemma Growing_get : Growing get.
Proof. intros w. apply grows_refl. Qed.

Lemma Growing_newDate : Growing newDate.
Proof. intros w. apply grows_refl. Qed.

Lemma Growing_modify (f : World -> World) :
  (forall w, grows w (f w)) -> Growing (modify f).
Proof. intros H w. apply H. Qed.

Lemma Growing_bind {A B : Type} (m : Handler A) (k : A -> Handler B) :
  Growing m -> (forall a, Growing (k a)) -> Growing (bind m k).
Proof.
  intros Hm Hk w. unfold bind.
  specialize (Hm w). destruct (m w) as [w' [a | e]]; simpl in *.
  - eapply grows_trans; [exact Hm | apply Hk].
  - exact Hm.
Qed.

Lemma Growing_tryCatch {A : Type} (body : Handler A)
  (handler : JSExn -> Handler A) :
  Growing body -> (forall e, Growing (handler e)) ->
  Growing (tryCatch body handler).
Proof.
  intros Hb Hh w. unfold tryCatch.
  specialize (Hb w). destruct (body w) as [w' [a | e]]; simpl in *.
  - exact Hb.
  - eapply grows_trans; [exact Hb | apply Hh].
Qed.

Lemma Growing_tryFinally {A : Type} (body : Handler A) (fin : Handler unit) :
  Growing body -> Growing fin -> Growing (tryFinally body fin).
Proof.
  intros Hb Hf w. unfold tryFinally.
  specialize (Hb w). destruct (body w) as [w' c]; simpl in *.
  specialize (Hf w'). destruct (fin w') as [w'' [u | e]]; simpl in *;
    eapply grows_trans; eassumption.
Qed.

Lemma grows_runTop (h : Handler unit) (w : World) :
  Growing h -> grows w (runTop h w).
Proof.
  intros Hh. unfold runTop. specialize (Hh w).
  destruct (h w) as [w' [u | e]]; simpl in *; exact Hh.
Qed.

Lemma Growing_callAsync (h : Handler unit) :
  Growing h -> Growing (callAsync h).
Proof. intros Hh w. simpl. apply grows_runTop. exact Hh. Qed.

Lemma Growing_clearTimeout (id : nat) : Growing (clearTimeout id).
Proof. intros w. apply grows_same; reflexivity. Qed.

Lemma Growing_effectCleanup : Growing effectCleanup.
Proof.
  apply Growing_bind; [apply Growing_get |].
  intros w. destruct (pollTimeoutRef w) as [id |];
    [destruct (Nat.eqb id 0) |];
    auto using Growing_ret, Growing_clearTimeout.
Qed.

Lemma Growing_renderFailure (e : JSExn) : Growing (renderFailure e).
Proof.
  apply Growing_bind; [| intros _; apply Growing_effectCleanup].
  apply Growing_modify. intros w. apply grows_same; reflexivity.
Qed.

Lemma Growing_setMessages (m : Completion Message) :
  Growing (setMessages m).
Proof.
  destruct m as [msg | e]; simpl;
    [destruct (renderable (content msg)) |];
    try apply Growing_renderFailure.
  apply Growing_bind; [| intros _; apply Growing_effectCleanup].
  apply Growing_modify. intros w. split; simpl.
  - eexists. reflexivity.
  - exists []. rewrite app_nil_r. reflexivity.
Qed.

Lemma Growing_appendBotLazy (c : Completion JValue) :
  Growing (appendBotLazy c).
Proof.
  apply Growing_bind; [apply Growing_newDate |].
  intros t. apply Growing_setMessages.
Qed.

Lemma Growing_appendBot (c : JValue) : Growing (appendBot c).
Proof. apply Growing_appendBotLazy. Qed.

Lemma Growing_setInput (v : jsstring) : Growing (setInput v).
Proof. intros w. apply grows_same; reflexivity. Qed.

Lemma Growing_setIsTyping (v : bool) : Growing (setIsTyping v).
Proof. intros w. apply grows_same; reflexivity. Qed.

Lemma Growing_consoleError (e : JSExn) : Growing (consoleError e).
Proof. intros w. apply grows_same; reflexivity. Qed.

Lemma Growing_setPollTimeout (id : JValue) (n ms : N) :
  Growing (setPollTimeout id n ms).
Proof. intros w. apply grows_same; reflexivity. Qed.

Lemma Growing_fetch (req : Request) (k : Continuation) :
  Growing (fetch req k).
Proof.
  intros w. split; simpl.
  - exists []. rewrite app_nil_r. reflexivity.
  - eexists. reflexivity.
Qed.

Lemma Growing_pollForResponse_catch (e : JSExn) :
  Growing (pollForResponse_catch e).
Proof.
  apply Growing_bind; [apply Growing_consoleError |].
  intros _. apply Growing_appendBot.
Qed.

Create HintDb growing.
#[local] Hint Resolve Growing_ret Growing_throw Growing_await Growing_get
  Growing_newDate Growing_setMessages Growing_appendBotLazy
  Growing_appendBot Growing_pollForResponse_catch Growing_setInput
  Growing_setIsTyping Growing_consoleError Growing_setPollTimeout
  Growing_fetch Growing_callAsync : growing.

(** Takes a handler apart along its binds and branches. *)
Ltac growing :=
  repeat first
    [ solve [auto with growing]
    | apply Growing_bind; [| intro]
    | apply Growing_tryFinally
    | apply Growing_tryCatch; [| intro]
    | match goal with
      | |- Growing (if ?c then _ else _) => destruct c
      | |- Growing (match ?x with _ => _ end) => destruct x
      end ].

Lemma Growing_pollForResponse (id : JValue) (n : N) :
  Growing (pollForResponse id n).
Proof. unfold pollForResponse. growing. Qed.

Lemma Growing_pollForResponse_resume (id : JValue) (n : N)
  (result : FetchResult) :
  Growing (pollForResponse_resume id n result).
Proof. unfold pollForResponse_resume, pollForResponse_try. growing. Qed.

Lemma Growing_handleSubmit : Growing handleSubmit.
Proof.
  unfold handleSubmit. growing.
Qed.

Lemma Growing_handleSubmit_resume (result : FetchResult) :
  Growing (handleSubmit_resume result).
Proof.
  unfold handleSubmit_resume, handleSubmit_try. growing;
    apply Growing_callAsync; apply Growing_pollForResponse.
Qed.

Lemma step_grows (w : World) (ev : Event) : grows w (step w ev).
Proof.
  destruct ev as [value | | i result | id | dt]; simpl.
  - apply grows_runTop. apply Growing_setInput.
  - apply grows_runTop. apply Growing_handleSubmit.
  - destruct (nth_error (inflight w) i) as [p |]; [| apply grows_refl].
    eapply grows_trans; [| apply grows_runTop].
    + apply grows_same; reflexivity.
    + destruct (resume p); simpl.
      * apply Growing_handleSubmit_resume.
      * apply Growing_pollForResponse_resume.
  - destruct (find _ (timers w)) as [t |]; [| apply grows_refl].
    eapply grows_trans; [| apply grows_runTop].
    + apply grows_same; reflexivity.
    + apply Growing_pollForResponse.
  - apply grows_same; reflexivity.
Qed.

Lemma run_grows (evs : list Event) : forall w, grows w (run w evs).
Proof.
  induction evs as [| ev evs IH]; intros w; simpl.
  - apply grows_refl.
  - eapply grows_trans; [apply step_grows | apply IH].
Qed.

(** ** What one step does *)

Lemma clearedTimers_nil (ref : option nat) : clearedTimers ref [] = [].
Proof.
  unfold clearedTimers.
  destruct ref as [id |]; simpl; [destruct (Nat.eqb id 0) |]; reflexivity.
Qed.

Lemma effectCleanup_eq (w : World) :
  effectCleanup w =
  (with_timers (clearedTimers (pollTimeoutRef w) (timers w)) w, Normal tt).
Proof.
  destruct w as [ms inp ty ref tms nid infl iss dl ce un nw re].
  unfold effectCleanup, bind, get, clearedTimers. simpl.
  destruct ref as [id |]; [destruct (Nat.eqb id 0) |]; reflexivity.
Qed.

Lemma renderFailure_eq (e : JSExn) (w : World) :
  renderFailure e w =
  (mkWorld (messages w) (input w) (isTyping w)
     (pollTimeoutRef w) (clearedTimers (pollTimeoutRef w) (timers w))
     (nextTimerId w) (inflight w) (issued w) (delays w) (consoleErrors w)
     (unhandled w) (now w) (renderErrors w ++ [e]),
   Normal tt).
Proof.
  unfold renderFailure, bind, modify. rewrite effectCleanup_eq. reflexivity.
Qed.

Lemma appendBotLazy_eq (c : Completion JValue) (w : World) :
  appendBotLazy c w =
  (match c with
   | Normal v =>
       if renderable v then
         mkWorld (messages w ++ [mkMessage bot v (now w)]) (input w)
           (isTyping w) (pollTimeoutRef w)
           (clearedTimers (pollTimeoutRef w) (timers w))
           (nextTimerId w) (inflight w) (issued w) (delays w)
           (consoleErrors w) (unhandled w) (now w) (renderErrors w)
       else fst (renderFailure invalidChild w)
   | Throw e => fst (renderFailure e w)
   end,
   Normal tt).
Proof.
  unfold appendBotLazy, setMessages, bind, newDate.
  destruct c as [v | e].
  - unfold modify. simpl. destruct (renderable v).
    + rewrite effectCleanup_eq. reflexivity.
    + rewrite renderFailure_eq. reflexivity.
  - rewrite renderFailure_eq. reflexivity.
Qed.

Lemma appendBot_eq (s : jsstring) (w : World) :
  appendBot (JString s) w =
  (mkWorld (messages w ++ [mkMessage bot (JString s) (now w)]) (input w)
     (isTyping w)
     (pollTimeoutRef w) (clearedTimers (pollTimeoutRef w) (timers w))
     (nextTimerId w) (inflight w) (issued w) (delays w) (consoleErrors w)
     (unhandled w) (now w) (renderErrors w),
   Normal tt).
Proof.
  unfold appendBot. rewrite appendBotLazy_eq. reflexivity.
Qed.

Lemma step_submit (w : World) :
  isEmpty (trim (input w)) = false ->
  step w Submit =
  mkWorld (messages w ++ [mkMessage user (JString (input w)) (now w)])
    [] true (pollTimeoutRef w)
    (clearedTimers (pollTimeoutRef w) (timers w)) (nextTimerId w)
    (inflight w ++ [mkSuspended (submission w) SubmitK])
    (issued w ++ [submission w]) (delays w) (consoleErrors w)
    (unhandled w) (now w) (renderErrors w).
Proof.
  intros Hin.
  unfold step, runTop, handleSubmit, bind, get. rewrite Hin.
  unfold newDate, setMessages, bind, modify. simpl.
  rewrite effectCleanup_eq. reflexivity.
Qed.

Lemma step_submit_blank (w : World) :
  isEmpty (trim (input w)) = true -> step w Submit = w.
Proof.
  intros Hin. unfold step, runTop, handleSubmit, bind, get.
  rewrite Hin. reflexivity.
Qed.

Lemma pollForResponse_eq (id : JValue) (n : N) (w : World) :
  pollForResponse id n w =
  (if 30 <? n then replied (JString timeoutText) [] (inflight w) w
   else started id n (inflight w) w,
   Normal tt).
Proof.
  unfold pollForResponse, started, replied, polling, pollForResponse_catch.
  destruct (30 <? n).
  - unfold bind. rewrite appendBot_eq. simpl. rewrite app_nil_r. reflexivity.
  - destruct (stringifiable id); [reflexivity |].
    unfold consoleError, bind, modify. rewrite appendBot_eq. reflexivity.
Qed.

Lemma handleSubmit_resume_eq (result : FetchResult) (w : World) :
  handleSubmit_resume result w =
  (match submissionResult result with
   | ImmediateReply textResponse =>
       replied (JString textResponse) [] (inflight w) w
   | Deferred id => started id 0 (inflight w) w
   | Failure e => replied (JString (describe e)) [e] (inflight w) w
   end,
   Normal tt).
Proof.
  unfold handleSubmit_resume, handleSubmit_try, tryCatch, bind, await,
    submissionResult, replied.
  destruct result as [r | e].
  - destruct (ok r).
    + destruct (includes applicationJson (contentTypeOf r)).
      * destruct (json r) as [data | e].
        -- destruct (getProp data (lit "messageId")) as [[id |] | e].
           ++ destruct (truthy (Some id)).
              ** unfold callAsync, runTop. rewrite pollForResponse_eq.
                 reflexivity.
              ** unfold throw, consoleError, bind, modify.
                 rewrite appendBot_eq. reflexivity.
           ++ unfold throw, consoleError, bind, modify.
              rewrite appendBot_eq. reflexivity.
           ++ unfold consoleError, bind, modify.
              rewrite appendBot_eq. reflexivity.
        -- unfold consoleError, bind, modify.
           rewrite appendBot_eq. reflexivity.
      * destruct (text r) as [body | e].
        -- rewrite appendBot_eq. simpl. rewrite app_nil_r. reflexivity.
        -- unfold consoleError, bind, modify.
           rewrite appendBot_eq. reflexivity.
    + unfold throw, consoleError, bind, modify.
      rewrite appendBot_eq. reflexivity.
  - unfold consoleError, bind, modify.
    rewrite appendBot_eq. reflexivity.
Qed.

Lemma pollForResponse_resume_eq (id : JValue) (n : N) (result : FetchResult)
  (w : World) :
  pollForResponse_resume id n result w =
  (match pollOutcome result with
   | Pending => waiting id n (inflight w) w
   | Ready c => answered c [] (inflight w) w
   | PollFailure e => replied (JString pollErrorText) [e] (inflight w) w
   end,
   Normal tt).
Proof.
  assert (Hready : forall data,
             (let (w', c) :=
                let (w', c) := appendBotLazy (replyContent data) w in
                match c with
                | Normal a => (w', Normal a)
                | Throw e => pollForResponse_catch e w'
                end in
              match setIsTyping false w' with
              | (w'', Normal _) => (w'', c)
              | (w'', Throw e) => (w'', Throw e)
              end)
             = (answered (replyContent data) [] (inflight w) w, Normal tt)).
  { intros data. rewrite appendBotLazy_eq. unfold answered, replied, torn.
    destruct (replyContent data) as [v | e];
      [destruct (renderable v) |];
      try rewrite renderFailure_eq; simpl; rewrite app_nil_r; reflexivity. }
  unfold pollForResponse_resume, pollForResponse_try, tryFinally, tryCatch,
    bind, await, pollOutcome, responseDataOf, replied, waiting.
  destruct result as [r | e].
  - destruct (status r =? 202); [reflexivity |].
    destruct (includes applicationJson (contentTypeOf r)).
    + destruct (json r) as [data | e].
      * apply Hready.
      * unfold pollForResponse_catch, consoleError, bind, modify.
        rewrite appendBot_eq. reflexivity.
    + destruct (text r) as [body | e].
      * unfold ret. apply Hready.
      * unfold pollForResponse_catch, consoleError, bind, modify.
        rewrite appendBot_eq. reflexivity.
  - unfold pollForResponse_catch, consoleError, bind, modify.
    rewrite appendBot_eq. reflexivity.
Qed.

Lemma step_settle_submit (w : World) (i : nat) req (result : FetchResult) :
  nth_error (inflight w) i = Some (mkSuspended req SubmitK) ->
  step w (Settle i result) =
  match submissionResult result with
  | ImmediateReply textResponse =>
      replied (JString textResponse) [] (removeNth i (inflight w)) w
  | Deferred id => started id 0 (removeNth i (inflight w)) w
  | Failure e => replied (JString (describe e)) [e] (removeNth i (inflight w)) w
  end.
Proof.
  intros Hi. unfold step. rewrite Hi.
  simpl continue. unfold runTop. rewrite handleSubmit_resume_eq.
  destruct (submissionResult result); reflexivity.
Qed.

Lemma step_settle_poll (w : World) (i : nat) req id n
  (result : FetchResult) :
  nth_error (inflight w) i = Some (mkSuspended req (PollK id n)) ->
  step w (Settle i result) =
  match pollOutcome result with
  | Pending => waiting id n (removeNth i (inflight w)) w
  | Ready c => answered c [] (removeNth i (inflight w)) w
  | PollFailure e =>
      replied (JString pollErrorText) [e] (removeNth i (inflight w)) w
  end.
Proof.
  intros Hi. unfold step. rewrite Hi.
  simpl continue. unfold runTop. rewrite pollForResponse_resume_eq.
  destruct (pollOutcome result); reflexivity.
Qed.

(** The same two, for the one fetch of a single cycle. *)
Lemma step_settle_submit_only (w : World) req (result : FetchResult) :
  inflight w = [mkSuspended req SubmitK] ->
  step w (Settle 0 result) =
  match submissionResult result with
  | ImmediateReply textResponse => replied (JString textResponse) [] [] w
  | Deferred id => started id 0 [] w
  | Failure e => replied (JString (describe e)) [e] [] w
  end.
Proof.
  intros Hi. rewrite (step_settle_submit w 0 req).
  - rewrite Hi. reflexivity.
  - rewrite Hi. reflexivity.
Qed.

Lemma step_settle_poll_only (w : World) req id n (result : FetchResult) :
  inflight w = [mkSuspended req (PollK id n)] ->
  step w (Settle 0 result) =
  match pollOutcome result with
  | Pending => waiting id n [] w
  | Ready c => answered c [] [] w
  | PollFailure e => replied (JString pollErrorText) [e] [] w
  end.
Proof.
  intros Hi. rewrite (step_settle_poll w 0 req id n).
  - rewrite Hi. reflexivity.
  - rewrite Hi. reflexivity.
Qed.

Lemma step_fire (w : World) (t : Timer) :
  timers w = [t] ->
  step w (Fire (timerId t)) =
  let w1 := with_now (N.max (now w) (due t)) (with_timers [] w) in
  if 30 <? tRetries t then replied (JString timeoutText) [] (inflight w) w1
  else started (tMessageId t) (tRetries t) (inflight w) w1.
Proof.
  intros Ht. unfold step. rewrite Ht. simpl find. simpl filter.
  rewrite Nat.eqb_refl. simpl negb. cbv iota.
  unfold runTop. rewrite pollForResponse_eq.
  destruct (30 <? tRetries t); reflexivity.
Qed.

(** ** The poll loop *)

Lemma pollOutcome_202 (r : Response) :
  status r = 202 -> pollOutcome (Normal r) = Pending.
Proof.
  intros H. unfold pollOutcome. rewrite H. reflexivity.
Qed.

Lemma answered_renderable (v : JValue) (errs : list JSExn)
  (rest : list Suspended) (w : World) :
  renderable v = true ->
  answered (Normal v) errs rest w = replied v errs rest w.
Proof.
  intros H. unfold answered. rewrite H. reflexivity.
Qed.

(** However a final answer ends, nothing is left pending after it. *)
Lemma answered_idle (c : Completion JValue) (errs : list JSExn) (w : World) :
  timers w = [] ->
  inflight (answered c errs [] w) = []
  /\ timers (answered c errs [] w) = [].
Proof.
  intros Ht. unfold answered.
  destruct c as [v | e]; [destruct (renderable v) |]; simpl;
    rewrite Ht, clearedTimers_nil; split; reflexivity.
Qed.

Lemma polls_of_repeat (id : JValue) (n : nat) :
  List.length
    (filter (fun r => match r with GetStatus _ => true | _ => false end)
            (repeat (GetStatus id) n)) = n.
Proof.
  induction n as [| n IH]; simpl; [reflexivity | rewrite IH; reflexivity].
Qed.

Lemma repeat_snoc {A : Type} (x : A) (n : nat) (l : list A) :
  (l ++ [x]) ++ repeat x n = l ++ repeat x (S n).
Proof.
  rewrite <- app_assoc. reflexivity.
Qed.

(** Splits a goal about a [replied] world into its parts and closes the
    routine ones. *)
Ltac replied_world Ht :=
  simpl; rewrite ?Ht, ?clearedTimers_nil; repeat split; try reflexivity.

(** The same for the world after a final answer [c], which made no
    request and set no timer however it ended. *)
Ltac stopped_world c Ht :=
  unfold answered;
  destruct c as [? | ?];
    [match goal with |- context [renderable ?v] => destruct (renderable v) end
    |];
    simpl; rewrite ?Ht, ?clearedTimers_nil, ?app_nil_r;
    repeat split; reflexivity.

Section PollLoop.

Variable net : Network.

(** One round of the loop, from the status query in flight to the next
    one: the answer arrives; if it says "in progress" the timer is set and
    runs out, and [pollForResponse] either gives up or asks again. *)
Lemma poll_round (fuel : nat) (k : N) (id : JValue) (req : Request)
  (w : World) :
  stringifiable id = true ->
  inflight w = [mkSuspended req (PollK id k)] ->
  timers w = [] ->
  let w0 := with_now (now w + latency net (issued w)) w in
  settle net (S (S fuel)) w =
  match pollOutcome (answer net (issued w)) with
  | Pending =>
      if 30 <? k + 1 then
        Some (replied (JString timeoutText) [] [] (retryDue id k w0))
      else settle net fuel (polling id (k + 1) [] (retryDue id k w0))
  | Ready c => Some (answered c [] [] w0)
  | PollFailure e => Some (replied (JString pollErrorText) [e] [] w0)
  end.
Proof.
  intros Hstr Hi Ht w0.
  rewrite (settle_fetch net _ w _ _ Hi). fold w0.
  rewrite (step_settle_poll_only w0 req id k _ Hi).
  destruct (pollOutcome (answer net (issued w))) as [| c | e].
  - set (t := mkTimer (nextTimerId w) (now w0 + 1000) id (k + 1)).
    assert (Ht1 : timers (waiting id k [] w0) = [t])
      by (simpl; rewrite Ht; reflexivity).
    rewrite (settle_timer net _ (waiting id k [] w0) t [] eq_refl Ht1).
    rewrite (step_fire (waiting id k [] w0) t Ht1). cbv zeta.
    change (tRetries t) with (k + 1). change (tMessageId t) with id.
    unfold started. rewrite Hstr.
    destruct (30 <? k + 1).
    + apply settle_done; simpl; [| rewrite clearedTimers_nil]; reflexivity.
    + destruct fuel; reflexivity.
  - destruct (answered_idle c [] w0 Ht) as [Hi' Ht'].
    apply settle_done; assumption.
  - apply settle_done; simpl; [| rewrite Ht, clearedTimers_nil]; reflexivity.
Qed.


(** When the server says "in progress" to every query the loop makes, the
    loop runs to the ceiling: with [n] retries left it makes [n] more
    queries after the pending one, sets [n + 1] timers of 1000 ms, and
    ends with the timeout text. *)
Lemma poll_times_out (n : nat) :
  forall (k : N) (id : JValue) (w : World),
    k + N.of_nat n = 30 ->
    stringifiable id = true ->
    inflight w = [mkSuspended (GetStatus id) (PollK id k)] ->
    timers w = [] ->
    (forall j, (j <= n)%nat ->
       pollOutcome (answer net (issued w ++ repeat (GetStatus id) j))
       = Pending) ->
    exists w' t,
      settle net (2 * n + 2) w = Some w'
      /\ messages w' = messages w ++ [mkMessage bot (JString timeoutText) t]
      /\ issued w' = issued w ++ repeat (GetStatus id) n
      /\ delays w' = delays w ++ repeat 1000 (S n)
      /\ inflight w' = [] /\ timers w' = []
      /\ unhandled w' = unhandled w
      /\ consoleErrors w' = consoleErrors w.
Proof.
  induction n as [| n IH]; intros k id w Hk Hstr Hi Ht Hpend.
  - replace (2 * 0 + 2)%nat with 2%nat by reflexivity.
    rewrite (poll_round 0 k id _ w Hstr Hi Ht). cbv zeta.
    pose proof (Hpend 0%nat (Nat.le_refl _)) as H0. simpl repeat in H0.
    rewrite app_nil_r in H0. rewrite H0.
    replace (30 <? k + 1) with true by (symmetry; apply N.ltb_lt; lia).
    eexists. eexists. split; [reflexivity |].
    replied_world Ht; rewrite app_nil_r; reflexivity.
  - replace (2 * S n + 2)%nat with (S (S (2 * n + 2))) by lia.
    rewrite (poll_round _ k id _ w Hstr Hi Ht). cbv zeta.
    pose proof (Hpend 0%nat (Nat.le_0_l _)) as H0. simpl repeat in H0.
    rewrite app_nil_r in H0. rewrite H0.
    replace (30 <? k + 1) with false by (symmetry; apply N.ltb_ge; lia).
    match goal with
    | |- context [settle net _ ?w2] =>
        destruct (IH (k + 1) id w2) as
          (w' & t' & Hs & Hm & Hq & Hd & Hi' & Ht' & Hu & Hc);
          [lia | exact Hstr | reflexivity | reflexivity | |]
    end.
    + intros j Hj. simpl issued. rewrite repeat_snoc. apply Hpend. lia.
    + exists w', t'. split; [exact Hs |].
      simpl in Hm, Hq, Hd, Hu, Hc.
      repeat split; try assumption.
      * rewrite Hq. apply repeat_snoc.
      * rewrite Hd. apply (repeat_snoc 1000 (S n)).
Qed.

End PollLoop.

(** * The claims *)

Lemma quiescent_idle (w : World) :
  quiescent w = true -> inflight w = [] /\ timers w = [].
Proof.
  unfold quiescent. destruct (inflight w); [destruct (timers w) |];
    intros H; try discriminate. split; reflexivity.
Qed.

Lemma idle_quiescent (w : World) :
  inflight w = [] -> timers w = [] -> quiescent w = true.
Proof.
  intros Hi Ht. unfold quiescent. rewrite Hi, Ht. reflexivity.
Qed.

Lemma nonblank (s : jsstring) : trim s <> [] -> isEmpty (trim s) = false.
Proof.
  destruct (trim s); [intros H; contradiction H; reflexivity | reflexivity].
Qed.

Lemma pollAttempts_issued (w w' : World) (more : list Request) :
  issued w' = issued w ++ more ->
  pollAttempts w' =
  (pollAttempts w
   + List.length
       (filter (fun r => match r with GetStatus _ => true | _ => false end)
               more))%nat.
Proof.
  intros H. unfold pollAttempts. rewrite H, filter_app, length_app.
  reflexivity.
Qed.

(** ** Submitting *)

(** C9. Submitting an input that is empty or consists of white space only
    changes nothing: the world after the submit event is the world before
    it, so no message is appended, no request is issued, and nothing is
    left pending. *)
Theorem blank_submit_is_noop (w : World) :
  Forall (fun c => isWhiteSpace c = true) (input w) ->
  step w Submit = w.
Proof.
  intros Hws. apply step_submit_blank.
  rewrite (trim_whitespace _ Hws). reflexivity.
Qed.

(** C2. On every submission the request carries, as [conversation_history],
    the messages that precede the submitted one, in order, each as its
    role ('user' for a user message, 'assistant' for a bot message) and
    its content; the submitted message is the last of the log and is not
    part of the history. *)
Theorem conversation_history_is_prior_transcript (w : World) :
  trim (input w) <> [] ->
  let w' := step w Submit in
  let N := List.length (messages w') in
  exists body,
    issued w' = issued w ++ [PostMessage body]
    /\ message body = input w
    /\ nth_error (messages w') (N - 1)
       = Some (mkMessage user (JString (input w)) (now w))
    /\ conversation_history body
       = map (fun m =>
                mkHistoryEntry
                  (match type m with
                   | user => lit "user"
                   | bot => lit "assistant"
                   end)
                  (content m))
             (firstn (N - 1) (messages w'))
    /\ List.length (conversation_history body) = (N - 1)%nat.
Proof.
  intros Hin. cbv zeta. rewrite (step_submit w (nonblank _ Hin)).
  cbn [messages issued].
  assert (HN : (List.length
                  (messages w ++ [mkMessage user (JString (input w)) (now w)])
                - 1 = List.length (messages w))%nat).
  { rewrite length_app. simpl. lia. }
  rewrite HN.
  exists (mkRequestBody (input w) (now w) (map toHistory (messages w))).
  split; [reflexivity |]. split; [reflexivity |]. split.
  - rewrite nth_error_app2 by lia. rewrite Nat.sub_diag. reflexivity.
  - rewrite firstn_app, firstn_all, Nat.sub_diag. simpl firstn.
    rewrite app_nil_r. split.
    + reflexivity.
    + simpl. apply length_map.
Qed.

(** ** The log *)

(** C5. The message log is append-only.  Whatever events occur, in
    whatever order, the log afterwards is the log before followed by the
    new messages: it never gets shorter and the messages it had stay where
    they were, unchanged. *)
Theorem message_log_append_only (w : World) (evs : list Event) :
  (exists more, messages (run w evs) = messages w ++ more)
  /\ (List.length (messages w) <= List.length (messages (run w evs)))%nat
  /\ firstn (List.length (messages w)) (messages (run w evs)) = messages w.
Proof.
  destruct (run_grows evs w) as [[more Hm] _].
  split; [exists more; exact Hm |].
  rewrite Hm. split.
  - rewrite length_app. lia.
  - rewrite firstn_app, firstn_all, Nat.sub_diag. simpl.
    apply app_nil_r.
Qed.

(** Until the first request goes out, the log is the greeting and nothing
    is pending. *)
Lemma before_first_submission (t0 : N) (evs : list Event) :
  let w := run (initialWorld t0) evs in
  issued w = [] ->
  messages w = [mkMessage bot (JString greetingText) t0]
  /\ inflight w = [] /\ timers w = [].
Proof.
  cbv zeta. induction evs as [| ev evs IH] using rev_ind; intros Hq.
  - repeat split; reflexivity.
  - unfold run in *. rewrite fold_left_app in *. simpl in *.
    set (w := fold_left step evs (initialWorld t0)) in *.
    destruct (step_grows w ev) as [_ [more Hmore]].
    rewrite Hq in Hmore. symmetry in Hmore.
    apply app_eq_nil in Hmore. destruct Hmore as [Hw _].
    destruct (IH Hw) as (Hm & Hi & Ht).
    destruct ev as [value | | i result | id | dt].
    + repeat split; assumption.
    + destruct (isEmpty (trim (input w))) eqn:Hb.
      * rewrite (step_submit_blank w Hb). repeat split; assumption.
      * rewrite (step_submit w Hb) in Hq. simpl in Hq.
        apply app_eq_nil in Hq. destruct Hq as [_ Hq]. discriminate.
    + simpl. rewrite Hi. destruct i; simpl; repeat split; assumption.
    + simpl. rewrite Ht. simpl. repeat split; assumption.
    + repeat split; assumption.
Qed.

(** C10. The conversation starts as exactly one bot message, the greeting;
    it is never empty afterwards; and the first request that goes out,
    whatever happened before it, carries exactly the greeting, with role
    'assistant', as its history. *)
Theorem greeting_is_first_history (t0 : N) (evs : list Event) :
  let w := run (initialWorld t0) evs in
  messages (initialWorld t0) = [mkMessage bot (JString greetingText) t0]
  /\ messages w <> []
  /\ (issued w = [] -> trim (input w) <> [] ->
      exists body,
        issued (step w Submit) = [PostMessage body]
        /\ conversation_history body
           = [mkHistoryEntry (lit "assistant") (JString greetingText)]).
Proof.
  cbv zeta. split; [reflexivity |]. split.
  - destruct (run_grows evs (initialWorld t0)) as [[more Hm] _].
    rewrite Hm. discriminate.
  - intros Hq Hin.
    destruct (before_first_submission t0 evs Hq) as (Hm & _ & _).
    rewrite (step_submit _ (nonblank _ Hin)). simpl issued.
    rewrite Hq. unfold submission. rewrite Hm.
    eexists. split; reflexivity.
Qed.

(** ** One cycle *)

(** A submit from a quiescent world leaves exactly the POST pending. *)
Lemma step_submit_idle (w : World) :
  quiescent w = true -> trim (input w) <> [] ->
  step w Submit =
  mkWorld (messages w ++ [mkMessage user (JString (input w)) (now w)])
    [] true (pollTimeoutRef w) [] (nextTimerId w)
    [mkSuspended (submission w) SubmitK]
    (issued w ++ [submission w]) (delays w) (consoleErrors w)
    (unhandled w) (now w) (renderErrors w).
Proof.
  intros Hq Hin. destruct (quiescent_idle w Hq) as [Hi Ht].
  rewrite (step_submit w (nonblank _ Hin)), Hi, Ht, clearedTimers_nil.
  reflexivity.
Qed.

(** A cycle whose submission is answered at once, by a reply or by a
    failure, ends after that one step with one bot message [c]. *)
Lemma cycle_without_poll (net : Network) (w : World) (c : JValue)
  (errs : list JSExn) :
  quiescent w = true -> trim (input w) <> [] ->
  (forall w1, inflight w1 = [mkSuspended (submission w) SubmitK] ->
     step w1 (Settle 0 (answer net (issued w ++ [submission w])))
     = replied c errs [] w1) ->
  exists w',
    ends_within net 1 (step w Submit) w'
    /\ messages w'
       = messages w ++ [mkMessage user (JString (input w)) (now w);
                        mkMessage bot c (answeredAt net w)]
    /\ issued w' = issued w ++ [submission w]
    /\ delays w' = delays w
    /\ consoleErrors w' = consoleErrors w ++ errs
    /\ unhandled w' = unhandled w
    /\ renderErrors w' = renderErrors w
    /\ quiescent w' = true
    /\ isTyping w' = false
    /\ pollAttempts w' = pollAttempts w.
Proof.
  intros Hq Hin Hstep.
  rewrite (step_submit_idle w Hq Hin).
  match goal with |- context [ends_within net 1 ?x _] => set (w1 := x) end.
  exists (replied c errs [] (with_now (answeredAt net w) w1)). split.
  - intros fuel Hf. apply (settle_enough net 1); [| exact Hf].
    rewrite (settle_fetch net 0 w1 _ _ eq_refl).
    change (issued w1) with (issued w ++ [submission w]).
    change (now w1) with (now w). fold (answeredAt net w).
    rewrite (Hstep (with_now (answeredAt net w) w1) eq_refl).
    apply settle_done; [reflexivity |]. simpl. apply clearedTimers_nil.
  - simpl. rewrite <- app_assoc. simpl.
    repeat split; try reflexivity.
    + unfold quiescent. simpl. rewrite clearedTimers_nil. reflexivity.
    + rewrite (pollAttempts_issued w _ [submission w]); [| reflexivity].
      simpl. lia.
Qed.

(** C3. A successful response that is not JSON is an immediate reply: the
    cycle ends after the one step that delivers it, the log gains the user
    message and one bot message whose content is the whole body, and no
    status query or timer is made. *)
Theorem plain_text_response_is_immediate_reply (net : Network) (w : World)
  (r : Response) (body : jsstring) :
  quiescent w = true -> trim (input w) <> [] ->
  answer net (issued (step w Submit)) = Normal r ->
  ok r = true ->
  includes applicationJson (contentTypeOf r) = false ->
  text r = Normal body ->
  exists w',
    ends_within net 1 (step w Submit) w'
    /\ messages w'
       = messages w ++ [mkMessage user (JString (input w)) (now w);
                        mkMessage bot (JString body) (answeredAt net w)]
    /\ pollAttempts w' = pollAttempts w
    /\ issued w' = issued w ++ [submission w]
    /\ delays w' = delays w
    /\ quiescent w' = true.
Proof.
  intros Hq Hin Hnet Hok Hct Htext.
  rewrite (step_submit_idle w Hq Hin) in Hnet. simpl in Hnet.
  destruct (cycle_without_poll net w (JString body) [] Hq Hin)
    as (w' & He & Hm & Hi & Hd & _ & _ & _ & Hq' & _ & Hp).
  - intros w1 Hw1. rewrite (step_settle_submit_only w1 _ _ Hw1), Hnet.
    unfold submissionResult. rewrite Hok, Hct, Htext. reflexivity.
  - exists w'. repeat split; assumption.
Qed.

(** C4. A response whose status is not a success makes the cycle fail at
    once: the error thrown, caught and logged has the message
    "Server error (Status <code>): <reason>", the reason chosen by the
    code (400, 401, 403, 429, 500, or anything else); the log gains the
    user message and one bot message with that text; no status query is
    made. *)
Theorem non_success_status_is_reported (net : Network) (w : World)
  (r : Response) :
  quiescent w = true -> trim (input w) <> [] ->
  answer net (issued (step w Submit)) = Normal r ->
  ok r = false ->
  exists w' reason,
    ends_within net 1 (step w Submit) w'
    /\ messages w'
       = messages w
         ++ [mkMessage user (JString (input w)) (now w);
             mkMessage bot
               (JString (lit "Server error (Status " ++ ofN (status r)
                         ++ lit "): " ++ reason))
               (answeredAt net w)]
    /\ consoleErrors w'
       = consoleErrors w
         ++ [ErrorObj (lit "Server error (Status " ++ ofN (status r)
                       ++ lit "): " ++ reason)]
    /\ (status r = 400 -> reason = lit "Invalid request format")
    /\ (status r = 401 -> reason = lit "Unauthorized access")
    /\ (status r = 403 -> reason = lit "Access forbidden")
    /\ (status r = 429 ->
        reason = lit "Too many requests, please try again later")
    /\ (status r = 500 -> reason = lit "Internal server error")
    /\ (status r <> 400 -> status r <> 401 -> status r <> 403 ->
        status r <> 429 -> status r <> 500 ->
        reason = lit "Unexpected error occurred")
    /\ pollAttempts w' = pollAttempts w
    /\ issued w' = issued w ++ [submission w]
    /\ delays w' = delays w
    /\ quiescent w' = true.
Proof.
  intros Hq Hin Hnet Hok.
  rewrite (step_submit_idle w Hq Hin) in Hnet. simpl in Hnet.
  destruct (cycle_without_poll net w
              (JString (errorMessage (status r)))
              [ErrorObj (errorMessage (status r))] Hq Hin)
    as (w' & He & Hm & Hi & Hd & Hc & _ & _ & Hq' & _ & Hp).
  - intros w1 Hw1. rewrite (step_settle_submit_only w1 _ _ Hw1), Hnet.
    unfold submissionResult. rewrite Hok. reflexivity.
  - exists w', (statusReason (status r)).
    split; [exact He |]. split; [exact Hm |]. split; [exact Hc |].
    unfold statusReason.
    repeat split; try assumption.
    + intros ->. reflexivity.
    + intros ->. reflexivity.
    + intros ->. reflexivity.
    + intros ->. reflexivity.
    + intros ->. reflexivity.
    + intros H0 H1 H3 H9 H5.
      apply N.eqb_neq in H0, H1, H3, H9, H5.
      rewrite H0, H1, H3, H9, H5. reflexivity.
Qed.

Lemma getProp_field (data : JValue) (k : jsstring) :
  data <> JNull -> getProp data k = Normal (field data k).
Proof.
  intros Hnn. destruct data; try reflexivity. contradiction Hnn; reflexivity.
Qed.


(** C1. When the status endpoint says "in progress" (202) to every query
    made for a job, the poll started for that job makes exactly 31
    queries, each retry set by a timer of 1000 ms, and then comes to rest
    with exactly one more message in the log, the timeout text; nothing is
    left pending, so no further query follows.  The job identifier is one
    that can be written into the URL of the query. *)
Theorem poll_always_in_progress_times_out (net : Network) (w : World)
  (id : JValue) :
  quiescent w = true ->
  stringifiable id = true ->
  (forall i, (i < 31)%nat ->
     exists r,
       answer net (issued w ++ repeat (GetStatus id) (S i)) = Normal r
       /\ status r = 202) ->
  exists w' t,
    ends_within net 62 (runTop (pollForResponse id 0) w) w'
    /\ issued w' = issued w ++ repeat (GetStatus id) 31
    /\ pollAttempts w' = (pollAttempts w + 31)%nat
    /\ delays w' = delays w ++ repeat 1000 31
    /\ messages w' = messages w ++ [mkMessage bot (JString timeoutText) t]
    /\ quiescent w' = true
    /\ consoleErrors w' = consoleErrors w
    /\ unhandled w' = unhandled w.
Proof.
  intros Hq Hstr Hnet. destruct (quiescent_idle w Hq) as [Hi Ht].
  unfold runTop. rewrite pollForResponse_eq. simpl.
  unfold started. rewrite Hstr, Hi.
  destruct (poll_times_out net 30 0 id (polling id 0 [] w))
    as (w' & t & Hs & Hm & Hiss & Hd & Hi' & Ht' & Hu & Hc);
    [reflexivity | exact Hstr | reflexivity | exact Ht | |].
  - intros j Hj. simpl issued. rewrite repeat_snoc.
    destruct (Hnet j) as (r & -> & H202); [lia |].
    apply pollOutcome_202. exact H202.
  - simpl in Hm, Hiss, Hd, Hu, Hc.
    assert (Hall : issued w' = issued w ++ repeat (GetStatus id) 31).
    { rewrite Hiss, <- app_assoc. reflexivity. }
    exists w', t. split.
    + intros fuel Hf. apply (settle_enough net 62); [exact Hs | exact Hf].
    + split; [exact Hall |]. split.
      * rewrite (pollAttempts_issued w w' _ Hall).
        rewrite (polls_of_repeat id 31). reflexivity.
      * repeat split; try assumption.
        apply idle_quiescent; assumption.
Qed.

(** ** The claims at sample inputs *)

Lemma blank_submit_is_noop_witness :
  step (typed [32; 9; 160; 12288]) Submit = typed [32; 9; 160; 12288].
Proof.
  apply (blank_submit_is_noop (typed [32; 9; 160; 12288])).
  simpl. repeat constructor.
Defined.

Lemma conversation_history_is_prior_transcript_witness :
  exists body,
    issued (step (typed (lit "hi")) Submit)
    = issued (typed (lit "hi")) ++ [PostMessage body]
    /\ message body = lit "hi"
    /\ conversation_history body
       = [mkHistoryEntry (lit "assistant") (JString greetingText)].
Proof.
  destruct (conversation_history_is_prior_transcript (typed (lit "hi")))
    as (body & Hi & Hm & _ & Hh & _).
  - vm_compute. discriminate.
  - exists body. split; [exact Hi |]. split; [exact Hm |]. exact Hh.
Defined.

Lemma greeting_is_first_history_witness :
  exists body,
    issued (step (typed (lit "hi")) Submit) = [PostMessage body]
    /\ conversation_history body
       = [mkHistoryEntry (lit "assistant") (JString greetingText)].
Proof.
  apply (proj2 (proj2 (greeting_is_first_history 0 [Change (lit "hi")]))).
  - reflexivity.
  - vm_compute. discriminate.
Defined.

Lemma plain_text_response_is_immediate_reply_witness :
  exists w',
    ends_within (answering plainReply) 1 (step (typed (lit "hi")) Submit) w'
    /\ messages w'
       = messages (typed (lit "hi"))
         ++ [mkMessage user (JString (lit "hi")) 0;
             mkMessage bot (JString (lit "Hello!")) 120]
    /\ pollAttempts w' = pollAttempts (typed (lit "hi"))
    /\ issued w' = issued (typed (lit "hi")) ++ [submission (typed (lit "hi"))]
    /\ delays w' = delays (typed (lit "hi"))
    /\ quiescent w' = true.
Proof.
  apply (plain_text_response_is_immediate_reply
           (answering plainReply) (typed (lit "hi")) plainReply
           (lit "Hello!")).
  - reflexivity.
  - vm_compute. discriminate.
  - reflexivity.
  - reflexivity.
  - reflexivity.
  - reflexivity.
Defined.

Lemma non_success_status_is_reported_witness :
  exists w',
    ends_within (answering rateLimited) 1 (step (typed (lit "hi")) Submit) w'
    /\ messages w'
       = messages (typed (lit "hi"))
         ++ [mkMessage user (JString (lit "hi")) 0;
             mkMessage bot
               (JString (lit "Server error (Status 429): Too many requests, please try again later"))
               120]
    /\ pollAttempts w' = 0%nat.
Proof.
  destruct (non_success_status_is_reported
              (answering rateLimited) (typed (lit "hi")) rateLimited)
    as (w' & reason & He & Hm & _ & _ & _ & _ & H429 & _ & _ & Hp & _).
  - reflexivity.
  - vm_compute. discriminate.
  - reflexivity.
  - reflexivity.
  - exists w'. split; [exact He |]. split; [| exact Hp].
    rewrite Hm, (H429 eq_refl). reflexivity.
Defined.

(** C6. A successful JSON response to the submission whose parsed body is
    [null] has no job identifier, yet the submission does not fail with
    the "No messageId" error: reading [data.messageId] throws a
    [TypeError] first, and it is that error's text the user sees. *)
Theorem null_body_is_not_reported_as_missing_job_id :
  quiescent (typed (lit "hi")) = true
  /\ trim (input (typed (lit "hi"))) <> []
  /\ answer (answering nullBody) (issued (step (typed (lit "hi")) Submit))
     = Normal nullBody
  /\ ok nullBody = true
  /\ includes applicationJson (contentTypeOf nullBody) = true
  /\ json nullBody = Normal JNull
  /\ field JNull (lit "messageId") = None
  /\ submissionResult (Normal nullBody)
     = Failure (ErrorObj (nullReadMessage (lit "messageId")))
  /\ submissionResult (Normal nullBody) <> Failure (ErrorObj noMessageIdText)
  /\ exists w',
       settle (answering nullBody) 1 (step (typed (lit "hi")) Submit)
       = Some w'
       /\ messages w'
          = messages (typed (lit "hi"))
            ++ [mkMessage user (JString (lit "hi")) 0;
                mkMessage bot (JString (nullReadMessage (lit "messageId")))
                          120]
       /\ messages w'
          <> messages (typed (lit "hi"))
             ++ [mkMessage user (JString (lit "hi")) 0;
                 mkMessage bot (JString noMessageIdText) 120].
Proof.
  split; [vm_compute; reflexivity |].
  split; [vm_compute; discriminate |].
  split; [vm_compute; reflexivity |].
  split; [vm_compute; reflexivity |].
  split; [vm_compute; reflexivity |].
  split; [vm_compute; reflexivity |].
  split; [vm_compute; reflexivity |].
  split; [vm_compute; reflexivity |].
  split; [vm_compute; discriminate |].
  eexists. split; [vm_compute; reflexivity |].
  split; [vm_compute; reflexivity |].
  vm_compute. discriminate.
Qed.

(** C7. A final status response that is JSON with the body [null] has
    no reply content, yet no placeholder reply is appended.
    [responseData.response] is read inside the updater given to
    [setMessages], which React runs while rendering, outside the [try]:
    the [TypeError] is not caught, nothing is appended and nothing is
    logged by the [catch] block; React removes the component. *)
Theorem null_status_body_is_not_a_fallback_reply :
  nth_error (inflight pollingWorld) 0
  = Some (mkSuspended (GetStatus job1) (PollK job1 0))
  /\ status nullBody <> 202
  /\ includes applicationJson (contentTypeOf nullBody) = true
  /\ json nullBody = Normal JNull
  /\ optChain (field JNull (lit "response")) (lit "content") = None
  /\ pollOutcome (Normal nullBody)
     = Ready (Throw (ErrorObj (nullReadMessage (lit "response"))))
  /\ messages (step pollingWorld (Settle 0 (Normal nullBody)))
     = messages pollingWorld
  /\ consoleErrors (step pollingWorld (Settle 0 (Normal nullBody))) = []
  /\ renderErrors (step pollingWorld (Settle 0 (Normal nullBody)))
     = [ErrorObj (nullReadMessage (lit "response"))]
  /\ mounted pollingWorld = true
  /\ mounted (step pollingWorld (Settle 0 (Normal nullBody))) = false.
Proof.
  split; [vm_compute; reflexivity |].
  split; [vm_compute; discriminate |].
  split; [vm_compute; reflexivity |].
  split; [vm_compute; reflexivity |].
  split; [vm_compute; reflexivity |].
  split; [vm_compute; reflexivity |].
  split; [vm_compute; reflexivity |].
  split; [vm_compute; reflexivity |].
  split; [vm_compute; reflexivity |].
  split; [vm_compute; reflexivity |].
  vm_compute. reflexivity.
Qed.

(** C8. An error of the cycle that is not recovered.  The submission is
    answered with a job identifier and the first status query with the
    JSON body [null].  The [TypeError] of reading [responseData.response]
    is thrown while React renders, past the [catch] of [pollForResponse]:
    the cycle ends with the user message and no bot message after it,
    nothing is logged, and the component is removed. *)
Theorem null_status_body_ends_cycle_without_reply :
  quiescent (typed (lit "hi")) = true
  /\ trim (input (typed (lit "hi"))) <> []
  /\ submissionResult
       (answer nullStatus (issued (step (typed (lit "hi")) Submit)))
     = Deferred job1
  /\ exists w',
       ends_within nullStatus 2 (step (typed (lit "hi")) Submit) w'
       /\ messages w'
          = messages (typed (lit "hi"))
            ++ [mkMessage user (JString (lit "hi")) 0]
       /\ pollAttempts w' = 1%nat
       /\ consoleErrors w' = []
       /\ unhandled w' = []
       /\ renderErrors w' = [ErrorObj (nullReadMessage (lit "response"))]
       /\ mounted w' = false
       /\ quiescent w' = true.
Proof.
  split; [vm_compute; reflexivity |].
  split; [vm_compute; discriminate |].
  split; [vm_compute; reflexivity |].
  eexists. split.
  - intros fuel Hf. apply (settle_enough nullStatus 2); [| exact Hf].
    vm_compute. reflexivity.
  - split; [vm_compute; reflexivity |].
    split; [vm_compute; reflexivity |].
    split; [vm_compute; reflexivity |].
    split; [vm_compute; reflexivity |].
    split; [vm_compute; reflexivity |].
    split; [vm_compute; reflexivity |].
    vm_compute. reflexivity.
Qed.

Lemma poll_always_in_progress_times_out_witness :
  exists w' t,
    ends_within (answering inProgress) 62
      (runTop (pollForResponse job1 0) (initialWorld 0)) w'
    /\ issued w' = repeat (GetStatus job1) 31
    /\ pollAttempts w' = 31%nat
    /\ delays w' = repeat 1000 31
    /\ messages w'
       = messages (initialWorld 0) ++ [mkMessage bot (JString timeoutText) t]
    /\ quiescent w' = true.
Proof.
  destruct (poll_always_in_progress_times_out
              (answering inProgress) (initialWorld 0) job1)
    as (w' & t & He & Hi & Hp & Hd & Hm & Hq & _).
  - reflexivity.
  - reflexivity.
  - intros i _. exists inProgress. split; reflexivity.
  - exists w', t. repeat split; assumption.
Defined.

(** * Further properties of the code *)

(** ** The guard of [handleSubmit] *)

Lemma trimStart_keeps (s : jsstring) :
  Exists (fun c => isWhiteSpace c = false) s ->
  Exists (fun c => isWhiteSpace c = false) (trimStart s).
Proof.
  induction s as [| c t IH]; intros H.
  - inversion H.
  - simpl. destruct (isWhiteSpace c) eqn:Hc.
    + apply IH. inversion H as [? ? Hc' | ? ? Ht]; subst.
      * rewrite Hc in Hc'. discriminate.
      * exact Ht.
    + exact H.
Qed.

(** An input with a code unit that is not white space is not blank. *)
Lemma trim_nonblank (s : jsstring) :
  Exists (fun c => isWhiteSpace c = false) s -> trim s <> [].
Proof.
  intros H. unfold trim, trimEnd.
  apply trimStart_keeps in H. apply Exists_rev in H.
  apply trimStart_keeps in H. apply Exists_rev in H.
  intros Hnil. rewrite Hnil in H. inversion H.
Qed.

(** X1. An input with at least one code unit that is not white space is
    sent: the submit appends exactly one user message whose content is the
    input as typed (not trimmed), issues exactly one request, the POST
    carrying the same untrimmed text, empties the input line and raises
    the typing flag. *)
Theorem nonblank_submit_posts_raw_input (w : World) :
  Exists (fun c => isWhiteSpace c = false) (input w) ->
  let w' := step w Submit in
  messages w' = messages w ++ [mkMessage user (JString (input w)) (now w)]
  /\ (exists body,
        issued w' = issued w ++ [PostMessage body]
        /\ message body = input w
        /\ sentAt body = now w)
  /\ inflight w' = inflight w ++ [mkSuspended (submission w) SubmitK]
  /\ input w' = []
  /\ isTyping w' = true.
Proof.
  intros H. cbv zeta.
  rewrite (step_submit w (nonblank _ (trim_nonblank _ H))). simpl.
  split; [reflexivity |]. split.
  - eexists. split; [reflexivity |]. split; reflexivity.
  - repeat split; reflexivity.
Qed.

(** X2. Submitting twice in a row sends once: the first submit empties the
    input line, so the second finds it blank and changes nothing. *)
Theorem resubmit_is_noop (w : World) :
  step (step w Submit) Submit = step w Submit.
Proof.
  destruct (isEmpty (trim (input w))) eqn:Hb.
  - rewrite (step_submit_blank w Hb). apply step_submit_blank. exact Hb.
  - apply step_submit_blank. rewrite (step_submit w Hb). reflexivity.
Qed.

Lemma app_one_neq {A : Type} (l : list A) (x : A) : l ++ [x] <> l.
Proof.
  intros H. apply (f_equal (@List.length A)) in H.
  rewrite length_app in H. simpl in H. lia.
Qed.

(** X3. The send button is disabled exactly when a submit would do
    nothing. *)
Theorem send_button_disabled_iff_submit_is_noop (w : World) :
  sendDisabled w = true <-> step w Submit = w.
Proof.
  unfold sendDisabled. split.
  - apply step_submit_blank.
  - intros Hsame. destruct (isEmpty (trim (input w))) eqn:Hb;
      [reflexivity |].
    rewrite (step_submit w Hb) in Hsame.
    apply (f_equal issued) in Hsame. simpl in Hsame.
    exfalso. exact (app_one_neq _ _ Hsame).
Qed.

(** ** Failing submissions *)

(** X17. A successful JSON response whose parsed body is not [null] and
    has no [messageId] field makes the submission fail with the
    "No messageId" error: no status query is made, and the log gains the
    user message and one bot message with the error's text. *)
Theorem missing_job_id_fails_without_polling (net : Network) (w : World)
  (r : Response) (data : JValue) :
  quiescent w = true -> trim (input w) <> [] ->
  answer net (issued (step w Submit)) = Normal r ->
  ok r = true ->
  includes applicationJson (contentTypeOf r) = true ->
  json r = Normal data ->
  data <> JNull ->
  field data (lit "messageId") = None ->
  exists w',
    ends_within net 1 (step w Submit) w'
    /\ submissionResult (Normal r) = Failure (ErrorObj noMessageIdText)
    /\ messages w'
       = messages w ++ [mkMessage user (JString (input w)) (now w);
                        mkMessage bot (JString noMessageIdText)
                                  (answeredAt net w)]
    /\ consoleErrors w' = consoleErrors w ++ [ErrorObj noMessageIdText]
    /\ pollAttempts w' = pollAttempts w
    /\ issued w' = issued w ++ [submission w]
    /\ delays w' = delays w
    /\ quiescent w' = true.
Proof.
  intros Hq Hin Hnet Hok Hct Hjson Hnn Hfield.
  rewrite (step_submit_idle w Hq Hin) in Hnet. simpl in Hnet.
  assert (Hres : submissionResult (Normal r)
                 = Failure (ErrorObj noMessageIdText)).
  { unfold submissionResult.
    rewrite Hok, Hct, Hjson, (getProp_field _ _ Hnn), Hfield. reflexivity. }
  destruct (cycle_without_poll net w (JString noMessageIdText)
              [ErrorObj noMessageIdText] Hq Hin)
    as (w' & He & Hm & Hi & Hd & Hc & _ & _ & Hq' & _ & Hp).
  - intros w1 Hw1. rewrite (step_settle_submit_only w1 _ _ Hw1), Hnet, Hres.
    reflexivity.
  - exists w'. repeat split; assumption.
Qed.

(** X4. A job identifier that is present but falsy ([null], [false], [0]
    or the empty string) counts as missing: the submission fails with the
    "No messageId" error, no status query is made, and the log gains the
    user message and one bot message with the error's text. *)
Theorem falsy_job_id_is_no_job_id (net : Network) (w : World)
  (r : Response) (data v : JValue) :
  quiescent w = true -> trim (input w) <> [] ->
  answer net (issued (step w Submit)) = Normal r ->
  ok r = true ->
  includes applicationJson (contentTypeOf r) = true ->
  json r = Normal data ->
  field data (lit "messageId") = Some v ->
  truthy (Some v) = false ->
  exists w',
    ends_within net 1 (step w Submit) w'
    /\ messages w'
       = messages w ++ [mkMessage user (JString (input w)) (now w);
                        mkMessage bot (JString noMessageIdText)
                                  (answeredAt net w)]
    /\ consoleErrors w' = consoleErrors w ++ [ErrorObj noMessageIdText]
    /\ pollAttempts w' = pollAttempts w
    /\ delays w' = delays w
    /\ quiescent w' = true.
Proof.
  intros Hq Hin Hnet Hok Hct Hjson Hfield Hfalsy.
  rewrite (step_submit_idle w Hq Hin) in Hnet. simpl in Hnet.
  assert (Hnn : data <> JNull) by (intros ->; discriminate Hfield).
  destruct (cycle_without_poll net w (JString noMessageIdText)
              [ErrorObj noMessageIdText] Hq Hin)
    as (w' & He & Hm & _ & Hd & Hc & _ & _ & Hq' & _ & Hp).
  - intros w1 Hw1. rewrite (step_settle_submit_only w1 _ _ Hw1), Hnet.
    unfold submissionResult.
    rewrite Hok, Hct, Hjson, (getProp_field _ _ Hnn), Hfield, Hfalsy.
    reflexivity.
  - exists w'. repeat split; assumption.
Qed.

(** X5. Whichever promise of the submission rejects ([fetch] itself, or
    the reading of the body as JSON or as text), the rejection is caught:
    it is logged, the log gains the user message and one bot message with
    the error's message (or with the "unexpected error" text when the
    thrown value is not an [Error]), and no status query is made. *)
Theorem submission_exception_is_surfaced (net : Network) (w : World)
  (e : JSExn) :
  quiescent w = true -> trim (input w) <> [] ->
  (answer net (issued (step w Submit)) = Throw e
   \/ exists r,
        answer net (issued (step w Submit)) = Normal r
        /\ ok r = true
        /\ (includes applicationJson (contentTypeOf r) = true
            /\ json r = Throw e
            \/ includes applicationJson (contentTypeOf r) = false
               /\ text r = Throw e)) ->
  exists w',
    ends_within net 1 (step w Submit) w'
    /\ messages w'
       = messages w
         ++ [mkMessage user (JString (input w)) (now w);
             mkMessage bot
               (JString (match e with
                         | ErrorObj m => m
                         | NonError => unexpectedText
                         end))
               (answeredAt net w)]
    /\ consoleErrors w' = consoleErrors w ++ [e]
    /\ unhandled w' = unhandled w
    /\ pollAttempts w' = pollAttempts w
    /\ delays w' = delays w
    /\ quiescent w' = true.
Proof.
  intros Hq Hin Hnet.
  rewrite (step_submit_idle w Hq Hin) in Hnet. simpl in Hnet.
  destruct (cycle_without_poll net w (JString (describe e)) [e] Hq Hin)
    as (w' & He & Hm & _ & Hd & Hc & Hu & _ & Hq' & _ & Hp).
  - intros w1 Hw1. rewrite (step_settle_submit_only w1 _ _ Hw1).
    unfold submissionResult.
    destruct Hnet as [-> | (r & -> & Hok & [[Hct ->] | [Hct ->]])].
    + reflexivity.
    + rewrite Hok, Hct. reflexivity.
    + rewrite Hok, Hct. reflexivity.
  - exists w'. repeat split; assumption.
Qed.

(** ** Polling to an answer *)

(** From a status query in flight, [j] answers "in progress" and then an
    answer that is not: the loop asks [j] more times, sets [j] timers,
    and ends with the message that answer calls for. *)
Lemma poll_settles_after (net : Network) (j : nat) :
  forall (k : N) (id : JValue) (w : World) (c : JValue)
         (errs : list JSExn),
    k + N.of_nat j <= 30 ->
    stringifiable id = true ->
    inflight w = [mkSuspended (GetStatus id) (PollK id k)] ->
    timers w = [] ->
    (forall i, (i < j)%nat ->
       pollOutcome (answer net (issued w ++ repeat (GetStatus id) i))
       = Pending) ->
    match pollOutcome (answer net (issued w ++ repeat (GetStatus id) j)) with
    | Pending => False
    | Ready c' => c' = Normal c /\ renderable c = true /\ errs = []
    | PollFailure e => c = JString pollErrorText /\ errs = [e]
    end ->
    exists w' t,
      settle net (2 * j + 2) w = Some w'
      /\ messages w' = messages w ++ [mkMessage bot c t]
      /\ issued w' = issued w ++ repeat (GetStatus id) j
      /\ delays w' = delays w ++ repeat 1000 j
      /\ consoleErrors w' = consoleErrors w ++ errs
      /\ unhandled w' = unhandled w
      /\ inflight w' = [] /\ timers w' = []
      /\ isTyping w' = false.
Proof.
  induction j as [| j IH]; intros k id w c errs Hk Hstr Hi Ht Hpend Hlast.
  - simpl repeat in Hlast. rewrite app_nil_r in Hlast.
    replace (2 * 0 + 2)%nat with 2%nat by reflexivity.
    rewrite (poll_round net 0 k id _ w Hstr Hi Ht). cbv zeta.
    destruct (pollOutcome (answer net (issued w))) as [| c' | e];
      [contradiction
      | destruct Hlast as (-> & Hv & ->);
        rewrite (answered_renderable _ _ _ _ Hv)
      | destruct Hlast as [-> ->]];
      eexists; eexists; (split; [reflexivity |]);
      replied_world Ht; rewrite ?app_nil_r; reflexivity.
  - replace (2 * S j + 2)%nat with (S (S (2 * j + 2))) by lia.
    rewrite (poll_round net _ k id _ w Hstr Hi Ht). cbv zeta.
    assert (H0 : pollOutcome (answer net (issued w)) = Pending).
    { specialize (Hpend 0%nat). simpl repeat in Hpend.
      rewrite app_nil_r in Hpend. apply Hpend. lia. }
    rewrite H0.
    replace (30 <? k + 1) with false by (symmetry; apply N.ltb_ge; lia).
    match goal with
    | |- context [settle net _ ?w2] =>
        destruct (IH (k + 1) id w2 c errs) as
          (w' & t & Hs & Hm & Hq & Hd & Hc & Hu & Hi' & Ht' & Hty);
          [lia | exact Hstr | reflexivity | reflexivity | | |]
    end.
    + intros i Hij. simpl issued. rewrite repeat_snoc.
      apply Hpend. lia.
    + simpl issued. rewrite repeat_snoc. exact Hlast.
    + exists w', t. split; [exact Hs |].
      simpl in Hm, Hq, Hd, Hc, Hu.
      repeat split; try assumption.
      * rewrite Hq. apply repeat_snoc.
      * rewrite Hd. apply repeat_snoc.
Qed.

Lemma submissionResult_deferred (r : Response) (data id : JValue) :
  ok r = true ->
  includes applicationJson (contentTypeOf r) = true ->
  json r = Normal data ->
  field data (lit "messageId") = Some id ->
  truthy (Some id) = true ->
  submissionResult (Normal r) = Deferred id.
Proof.
  intros Hok Hct Hjson Hfield Htruthy.
  assert (Hnn : data <> JNull) by (intros ->; discriminate Hfield).
  unfold submissionResult.
  rewrite Hok, Hct, Hjson, (getProp_field _ _ Hnn), Hfield, Htruthy.
  reflexivity.
Qed.

(** A whole cycle whose submission is answered with a job identifier and
    whose status queries are answered "in progress" [j] times and then
    otherwise. *)
Lemma cycle_with_poll (net : Network) (w : World) (r : Response)
  (data id : JValue) (j : nat) (c : JValue) (errs : list JSExn) :
  quiescent w = true -> trim (input w) <> [] ->
  answer net (issued w ++ [submission w]) = Normal r ->
  ok r = true ->
  includes applicationJson (contentTypeOf r) = true ->
  json r = Normal data ->
  field data (lit "messageId") = Some id ->
  truthy (Some id) = true ->
  stringifiable id = true ->
  (j <= 30)%nat ->
  (forall i, (i < j)%nat ->
     pollOutcome
       (answer net
          (issued w ++ submission w :: repeat (GetStatus id) (S i)))
     = Pending) ->
  match pollOutcome
          (answer net
             (issued w ++ submission w :: repeat (GetStatus id) (S j)))
  with
  | Pending => False
  | Ready c' => c' = Normal c /\ renderable c = true /\ errs = []
  | PollFailure e => c = JString pollErrorText /\ errs = [e]
  end ->
  exists w' t,
    ends_within net (2 * j + 3) (step w Submit) w'
    /\ messages w'
       = messages w ++ [mkMessage user (JString (input w)) (now w);
                        mkMessage bot c t]
    /\ issued w'
       = issued w ++ submission w :: repeat (GetStatus id) (S j)
    /\ pollAttempts w' = (pollAttempts w + S j)%nat
    /\ delays w' = delays w ++ repeat 1000 j
    /\ consoleErrors w' = consoleErrors w ++ errs
    /\ unhandled w' = unhandled w
    /\ quiescent w' = true
    /\ isTyping w' = false.
Proof.
  intros Hq Hin Hnet Hok Hct Hjson Hfield Htruthy Hstr Hj Hpend Hlast.
  pose proof (submissionResult_deferred r data id Hok Hct Hjson Hfield
                Htruthy) as Hres.
  rewrite (step_submit_idle w Hq Hin).
  match goal with |- context [ends_within net _ ?x _] => set (w1 := x) end.
  set (w2 := polling id 0 [] (with_now (answeredAt net w) w1)).
  assert (Hiss2 : forall n,
             issued w2 ++ repeat (GetStatus id) n
             = issued w ++ submission w :: repeat (GetStatus id) (S n)).
  { intros n. simpl issued. rewrite repeat_snoc, <- app_assoc.
    reflexivity. }
  destruct (poll_settles_after net j 0 id w2 c errs)
    as (w' & t & Hs & Hm & Hi & Hd & Hc & Hu & Hi' & Ht' & Hty).
  - lia.
  - exact Hstr.
  - reflexivity.
  - reflexivity.
  - intros i Hij. rewrite Hiss2. apply Hpend. exact Hij.
  - rewrite Hiss2. exact Hlast.
  - rewrite (Hiss2 j) in Hi.
    exists w', t. split.
    + intros fuel Hf. apply (settle_enough net (2 * j + 3)); [| exact Hf].
      replace (2 * j + 3)%nat with (S (2 * j + 2)) by lia.
      rewrite (settle_fetch net _ w1 _ _ eq_refl).
      change (issued w1) with (issued w ++ [submission w]).
      change (now w1) with (now w). fold (answeredAt net w).
      rewrite (step_settle_submit_only (with_now (answeredAt net w) w1)
                 _ _ eq_refl), Hnet, Hres.
      unfold started. rewrite Hstr. exact Hs.
    + simpl in Hm, Hd, Hc, Hu. rewrite <- app_assoc in Hm. simpl in Hm.
      repeat split; try assumption.
      * rewrite (pollAttempts_issued w w' _ Hi). simpl.
        rewrite (polls_of_repeat id j). reflexivity.
      * apply idle_quiescent; assumption.
Qed.

(** X6. When the submission is answered with a job identifier that can
    be written into the URL, and the status endpoint says "in progress"
    (202) to the first [j] queries, [j <= 30], and gives to the next a
    final answer whose reply [c] can be rendered, the cycle makes exactly
    [j + 1] status queries, all for that identifier, sets exactly [j]
    timers of 1000 ms, and ends with the user message followed by exactly
    one bot message, the reply; nothing is logged as an error. *)
Theorem reply_after_retries (net : Network) (w : World) (r : Response)
  (data id : JValue) (j : nat) (c : JValue) :
  quiescent w = true -> trim (input w) <> [] ->
  answer net (issued w ++ [submission w]) = Normal r ->
  ok r = true ->
  includes applicationJson (contentTypeOf r) = true ->
  json r = Normal data ->
  field data (lit "messageId") = Some id ->
  truthy (Some id) = true ->
  stringifiable id = true ->
  (j <= 30)%nat ->
  (forall i, (i < j)%nat ->
     exists r',
       answer net (issued w ++ submission w :: repeat (GetStatus id) (S i))
       = Normal r'
       /\ status r' = 202) ->
  pollOutcome
    (answer net (issued w ++ submission w :: repeat (GetStatus id) (S j)))
  = Ready (Normal c) ->
  renderable c = true ->
  exists w' t,
    ends_within net (2 * j + 3) (step w Submit) w'
    /\ messages w'
       = messages w ++ [mkMessage user (JString (input w)) (now w);
                        mkMessage bot c t]
    /\ issued w'
       = issued w ++ submission w :: repeat (GetStatus id) (S j)
    /\ pollAttempts w' = (pollAttempts w + S j)%nat
    /\ delays w' = delays w ++ repeat 1000 j
    /\ consoleErrors w' = consoleErrors w
    /\ quiescent w' = true.
Proof.
  intros Hq Hin Hnet Hok Hct Hjson Hfield Htruthy Hstr Hj Hpend Hlast Hv.
  destruct (cycle_with_poll net w r data id j c [] Hq Hin Hnet Hok Hct
              Hjson Hfield Htruthy Hstr Hj)
    as (w' & t & He & Hm & Hi & Hp & Hd & Hc & _ & Hq' & _).
  - intros i Hij. destruct (Hpend i Hij) as (r' & -> & H202).
    apply pollOutcome_202. exact H202.
  - rewrite Hlast. repeat split; [exact Hv].
  - exists w', t. rewrite app_nil_r in Hc. repeat split; assumption.
Qed.

(** X7. A hard error is not retried.  When a status query for a job
    identifier that can be written into the URL fails (the fetch rejects,
    or the reading of the body as JSON or as text rejects) after [j]
    answers "in progress", the cycle stops there: [j + 1] status queries
    in all, the error logged, and exactly one bot message, the poll error
    text. *)
Theorem poll_failure_is_not_retried (net : Network) (w : World)
  (r : Response) (data id : JValue) (j : nat) (e : JSExn) :
  quiescent w = true -> trim (input w) <> [] ->
  answer net (issued w ++ [submission w]) = Normal r ->
  ok r = true ->
  includes applicationJson (contentTypeOf r) = true ->
  json r = Normal data ->
  field data (lit "messageId") = Some id ->
  truthy (Some id) = true ->
  stringifiable id = true ->
  (j <= 30)%nat ->
  (forall i, (i < j)%nat ->
     exists r',
       answer net (issued w ++ submission w :: repeat (GetStatus id) (S i))
       = Normal r'
       /\ status r' = 202) ->
  (answer net (issued w ++ submission w :: repeat (GetStatus id) (S j))
   = Throw e
   \/ exists r',
        answer net
          (issued w ++ submission w :: repeat (GetStatus id) (S j))
        = Normal r'
        /\ status r' <> 202
        /\ (includes applicationJson (contentTypeOf r') = true
            /\ json r' = Throw e
            \/ includes applicationJson (contentTypeOf r') = false
               /\ text r' = Throw e)) ->
  exists w' t,
    ends_within net (2 * j + 3) (step w Submit) w'
    /\ messages w'
       = messages w ++ [mkMessage user (JString (input w)) (now w);
                        mkMessage bot (JString pollErrorText) t]
    /\ issued w'
       = issued w ++ submission w :: repeat (GetStatus id) (S j)
    /\ pollAttempts w' = (pollAttempts w + S j)%nat
    /\ delays w' = delays w ++ repeat 1000 j
    /\ consoleErrors w' = consoleErrors w ++ [e]
    /\ unhandled w' = unhandled w
    /\ quiescent w' = true.
Proof.
  intros Hq Hin Hnet Hok Hct Hjson Hfield Htruthy Hstr Hj Hpend Hlast.
  destruct (cycle_with_poll net w r data id j (JString pollErrorText) [e]
              Hq Hin Hnet Hok Hct Hjson Hfield Htruthy Hstr Hj)
    as (w' & t & He & Hm & Hi & Hp & Hd & Hc & Hu & Hq' & _).
  - intros i Hij. destruct (Hpend i Hij) as (r' & -> & H202).
    apply pollOutcome_202. exact H202.
  - unfold pollOutcome, responseDataOf.
    destruct Hlast as [-> | (r' & -> & Hst & [[Hct' ->] | [Hct' ->]])].
    + split; reflexivity.
    + apply N.eqb_neq in Hst. rewrite Hst, Hct'. split; reflexivity.
    + apply N.eqb_neq in Hst. rewrite Hst, Hct'. split; reflexivity.
  - exists w', t. repeat split; assumption.
Qed.

(** ** The ceiling *)

(** From a status query in flight with [n] retries left, whatever the
    network answers, the loop asks again after each "in progress" answer,
    [q] times in all, [q <= n], and stops at the first answer that is not
    "in progress", or when the answer to the last query allowed still
    is. *)
Lemma poll_bounded (net : Network) (n : nat) :
  forall (k : N) (id : JValue) (w : World),
    k + N.of_nat n = 30 ->
    stringifiable id = true ->
    inflight w = [mkSuspended (GetStatus id) (PollK id k)] ->
    timers w = [] ->
    exists w' q d,
      settle net (2 * n + 2) w = Some w'
      /\ (q <= n)%nat
      /\ (forall i, (i < q)%nat ->
            pollOutcome (answer net (issued w ++ repeat (GetStatus id) i))
            = Pending)
      /\ match
           pollOutcome (answer net (issued w ++ repeat (GetStatus id) q))
         with
         | Pending => q = n /\ d = S n
         | _ => d = q
         end
      /\ issued w' = issued w ++ repeat (GetStatus id) q
      /\ delays w' = delays w ++ repeat 1000 d
      /\ inflight w' = [] /\ timers w' = [].
Proof.
  induction n as [| n IH]; intros k id w Hk Hstr Hi Ht.
  - replace (2 * 0 + 2)%nat with 2%nat by reflexivity.
    rewrite (poll_round net 0 k id _ w Hstr Hi Ht). cbv zeta.
    destruct (pollOutcome (answer net (issued w))) as [| c | e] eqn:Ho.
    + replace (30 <? k + 1) with true by (symmetry; apply N.ltb_lt; lia).
      eexists. exists 0%nat, 1%nat. split; [reflexivity |].
      split; [lia |]. split; [intros i Hi0; lia |].
      simpl repeat. rewrite app_nil_r, Ho.
      split; [split; reflexivity |].
      replied_world Ht; rewrite app_nil_r; reflexivity.
    + eexists. exists 0%nat, 0%nat. split; [reflexivity |].
      split; [lia |]. split; [intros i Hi0; lia |].
      simpl repeat. rewrite app_nil_r, Ho. split; [reflexivity |].
      stopped_world c Ht.
    + eexists. exists 0%nat, 0%nat. split; [reflexivity |].
      split; [lia |]. split; [intros i Hi0; lia |].
      simpl repeat. rewrite app_nil_r, Ho. split; [reflexivity |].
      replied_world Ht; rewrite app_nil_r; reflexivity.
  - replace (2 * S n + 2)%nat with (S (S (2 * n + 2))) by lia.
    rewrite (poll_round net _ k id _ w Hstr Hi Ht). cbv zeta.
    destruct (pollOutcome (answer net (issued w))) as [| c | e] eqn:Ho.
    + replace (30 <? k + 1) with false by (symmetry; apply N.ltb_ge; lia).
      match goal with
      | |- context [settle net _ ?w2] =>
          destruct (IH (k + 1) id w2) as
            (w' & q & d & Hs & Hq & Hp & Hl & Hiss & Hdl & Hi' & Ht');
            [lia | exact Hstr | reflexivity | reflexivity |]
      end.
      simpl issued in Hp, Hl, Hiss. simpl delays in Hdl.
      exists w', (S q), (S d). split; [exact Hs |].
      split; [lia |]. split.
      * intros i Hiq. destruct i as [| i].
        -- simpl repeat. rewrite app_nil_r. exact Ho.
        -- rewrite <- repeat_snoc. apply Hp. lia.
      * rewrite repeat_snoc in Hl. split.
        -- destruct (pollOutcome
                       (answer net
                          (issued w ++ repeat (GetStatus id) (S q))));
             [destruct Hl as [-> ->]; split; reflexivity
             | rewrite Hl; reflexivity | rewrite Hl; reflexivity].
        -- repeat split; try assumption.
           ++ rewrite Hiss. apply repeat_snoc.
           ++ rewrite Hdl. apply repeat_snoc.
    + eexists. exists 0%nat, 0%nat. split; [reflexivity |].
      split; [lia |]. split; [intros i Hi0; lia |].
      simpl repeat. rewrite app_nil_r, Ho. split; [reflexivity |].
      stopped_world c Ht.
    + eexists. exists 0%nat, 0%nat. split; [reflexivity |].
      split; [lia |]. split; [intros i Hi0; lia |].
      simpl repeat. rewrite app_nil_r, Ho. split; [reflexivity |].
      replied_world Ht; rewrite app_nil_r; reflexivity.
Qed.

(** X8. The retry ceiling holds against every network.  When the
    submission is answered with a job identifier that can be written into
    the URL, then whatever the server answers to the status queries, the
    cycle makes one POST and then [1 + q] status queries, [q <= 30], all
    for that identifier: the answers to the first [q] are "in progress",
    and either the answer to the last is not, and [q] timers of 1000 ms
    were set, or the last is the 31st query and its answer is "in
    progress" too, and 31 timers were set. *)
Theorem poll_ceiling_for_any_network (net : Network) (w : World)
  (id : JValue) :
  quiescent w = true -> trim (input w) <> [] ->
  submissionResult (answer net (issued (step w Submit))) = Deferred id ->
  stringifiable id = true ->
  exists w' q d,
    ends_within net 63 (step w Submit) w'
    /\ (q <= 30)%nat
    /\ (forall i, (i < q)%nat ->
          pollOutcome
            (answer net
               (issued w ++ submission w :: repeat (GetStatus id) (S i)))
          = Pending)
    /\ match
         pollOutcome
           (answer net
              (issued w ++ submission w :: repeat (GetStatus id) (S q)))
       with
       | Pending => q = 30%nat /\ d = 31%nat
       | _ => d = q
       end
    /\ issued w' = issued w ++ submission w :: repeat (GetStatus id) (S q)
    /\ pollAttempts w' = (pollAttempts w + S q)%nat
    /\ delays w' = delays w ++ repeat 1000 d.
Proof.
  intros Hq Hin Hres Hstr.
  rewrite (step_submit_idle w Hq Hin) in *. simpl issued in Hres.
  match goal with |- context [ends_within net 63 ?x _] => set (w1 := x) end.
  set (w2 := polling id 0 [] (with_now (answeredAt net w) w1)).
  assert (Hiss2 : forall n,
             issued w2 ++ repeat (GetStatus id) n
             = issued w ++ submission w :: repeat (GetStatus id) (S n)).
  { intros n. simpl issued. rewrite repeat_snoc, <- app_assoc.
    reflexivity. }
  destruct (poll_bounded net 30 0 id w2)
    as (w' & q & d & Hs & Hq' & Hp & Hl & Hiss & Hdl & _ & _);
    [reflexivity | exact Hstr | reflexivity | reflexivity |].
  rewrite Hiss2 in Hl, Hiss. simpl delays in Hdl.
  exists w', q, d. split.
  - intros fuel Hf. apply (settle_enough net 63); [| exact Hf].
    rewrite (settle_fetch net 62 w1 _ _ eq_refl).
    change (issued w1) with (issued w ++ [submission w]).
    change (now w1) with (now w). fold (answeredAt net w).
    rewrite (step_settle_submit_only (with_now (answeredAt net w) w1)
               _ _ eq_refl), Hres.
    unfold started. rewrite Hstr. exact Hs.
  - split; [exact Hq' |]. split.
    + intros i Hi. rewrite <- Hiss2. apply Hp. exact Hi.
    + split; [exact Hl |]. split; [exact Hiss |]. split; [| exact Hdl].
      rewrite (pollAttempts_issued w w' _ Hiss). simpl.
      rewrite (polls_of_repeat id q). reflexivity.
Qed.

(** ** Every cycle that can be rendered resolves *)


(** ** What a status answer does *)

(** X18. A final status response that is JSON, whose parsed body is not
    [null] and has no [response.content], is still a reply: the outcome is
    [Ready] with the placeholder text, the log gains one bot message with
    that text, nothing is logged as an error, and no retry or request
    follows. *)
Theorem missing_content_falls_back (w : World) (i : nat) (req : Request)
  (id : JValue) (k : N) (r : Response) (data : JValue) :
  nth_error (inflight w) i = Some (mkSuspended req (PollK id k)) ->
  status r <> 202 ->
  includes applicationJson (contentTypeOf r) = true ->
  json r = Normal data ->
  data <> JNull ->
  optChain (field data (lit "response")) (lit "content") = None ->
  let w' := step w (Settle i (Normal r)) in
  pollOutcome (Normal r) = Ready (Normal (JString fallbackText))
  /\ messages w'
     = messages w ++ [mkMessage bot (JString fallbackText) (now w)]
  /\ consoleErrors w' = consoleErrors w
  /\ issued w' = issued w
  /\ delays w' = delays w
  /\ inflight w' = removeNth i (inflight w)
  /\ isTyping w' = false.
Proof.
  intros Hi Hst Hct Hjson Hnn Hmiss. cbv zeta.
  assert (Hout : pollOutcome (Normal r)
                 = Ready (Normal (JString fallbackText))).
  { unfold pollOutcome, responseDataOf, replyContent.
    apply N.eqb_neq in Hst.
    rewrite Hst, Hct, Hjson, (getProp_field _ _ Hnn), Hmiss. reflexivity. }
  rewrite (step_settle_poll w i req id k _ Hi), Hout. simpl.
  rewrite app_nil_r. repeat split; reflexivity.
Qed.

(** X9. A status answer that is not 202 and not JSON is final whatever
    its status code is, an error status included: its body is the reply.
    An empty body is replaced by the placeholder text.  One bot message
    is appended, nothing is logged as an error, and no request or timer
    follows. *)
Theorem plain_text_status_answer_is_the_reply (w : World) (i : nat)
  (req : Request) (id : JValue) (k : N) (r : Response) (body : jsstring) :
  nth_error (inflight w) i = Some (mkSuspended req (PollK id k)) ->
  status r <> 202 ->
  includes applicationJson (contentTypeOf r) = false ->
  text r = Normal body ->
  let w' := step w (Settle i (Normal r)) in
  messages w'
  = messages w
    ++ [mkMessage bot
          (JString (if isEmpty body then fallbackText else body)) (now w)]
  /\ consoleErrors w' = consoleErrors w
  /\ issued w' = issued w
  /\ delays w' = delays w
  /\ inflight w' = removeNth i (inflight w)
  /\ isTyping w' = false.
Proof.
  intros Hi Hst Hct Htext. cbv zeta.
  assert (Hout : pollOutcome (Normal r)
                 = Ready (Normal (JString (if isEmpty body then fallbackText
                                           else body)))).
  { unfold pollOutcome, responseDataOf.
    apply N.eqb_neq in Hst. rewrite Hst, Hct, Htext.
    destruct body; reflexivity. }
  rewrite (step_settle_poll w i req id k _ Hi), Hout. simpl.
  rewrite app_nil_r. repeat split; reflexivity.
Qed.

(** X10. A JSON status answer that is not 202 and whose [response.content]
    is truthy and can be rendered is final: that value, as it is, becomes
    the content of the one bot message appended; nothing is logged as an
    error, and no request or timer follows. *)
Theorem json_status_answer_content_is_the_reply (w : World) (i : nat)
  (req : Request) (id : JValue) (k : N) (r : Response) (data c : JValue) :
  nth_error (inflight w) i = Some (mkSuspended req (PollK id k)) ->
  status r <> 202 ->
  includes applicationJson (contentTypeOf r) = true ->
  json r = Normal data ->
  optChain (field data (lit "response")) (lit "content") = Some c ->
  truthy (Some c) = true ->
  renderable c = true ->
  let w' := step w (Settle i (Normal r)) in
  messages w' = messages w ++ [mkMessage bot c (now w)]
  /\ consoleErrors w' = consoleErrors w
  /\ issued w' = issued w
  /\ delays w' = delays w
  /\ inflight w' = removeNth i (inflight w)
  /\ isTyping w' = false.
Proof.
  intros Hi Hst Hct Hjson Hc Htruthy Hv. cbv zeta.
  assert (Hnn : data <> JNull) by (intros ->; discriminate Hc).
  assert (Hout : pollOutcome (Normal r) = Ready (Normal c)).
  { unfold pollOutcome, responseDataOf, replyContent.
    apply N.eqb_neq in Hst.
    rewrite Hst, Hct, Hjson, (getProp_field _ _ Hnn), Hc.
    unfold orElse. rewrite Htruthy. reflexivity. }
  rewrite (step_settle_poll w i req id k _ Hi), Hout.
  rewrite (answered_renderable _ _ _ _ Hv). simpl.
  rewrite app_nil_r. repeat split; reflexivity.
Qed.

(** X11. An "in progress" answer (202) leaves the log alone, sets one
    timer of 1000 ms for the call with the retry count one higher, keeps
    its identifier in [pollTimeoutRef], and, through the [finally] block,
    lowers the typing flag although the poll goes on. *)
Theorem in_progress_answer_schedules_one_retry (w : World) (i : nat)
  (req : Request) (id : JValue) (k : N) (r : Response) :
  nth_error (inflight w) i = Some (mkSuspended req (PollK id k)) ->
  status r = 202 ->
  let w' := step w (Settle i (Normal r)) in
  messages w' = messages w
  /\ issued w' = issued w
  /\ timers w'
     = timers w ++ [mkTimer (nextTimerId w) (now w + 1000) id (k + 1)]
  /\ delays w' = delays w ++ [1000]
  /\ pollTimeoutRef w' = Some (nextTimerId w)
  /\ inflight w' = removeNth i (inflight w)
  /\ isTyping w' = false.
Proof.
  intros Hi Hst. cbv zeta.
  rewrite (step_settle_poll w i req id k _ Hi), (pollOutcome_202 r Hst).
  repeat split; reflexivity.
Qed.

(** ** Overlapping cycles *)

Lemma find_after_filter (id : nat) (ts : list Timer) :
  find (fun t => Nat.eqb (timerId t) id)
       (filter (fun t => negb (Nat.eqb (timerId t) id)) ts) = None.
Proof.
  induction ts as [| t ts IH]; simpl; [reflexivity |].
  destruct (Nat.eqb (timerId t) id) eqn:Hid; simpl.
  - exact IH.
  - rewrite Hid. exact IH.
Qed.

(** X12. A submit made while a retry is pending cancels the retry: the
    change of [messages] runs the effect cleanup, which clears the timer
    kept in [pollTimeoutRef]; when that timer's time comes nothing
    happens, so the earlier job is not asked about again. *)
Theorem submit_cancels_pending_retry (w : World) (id : nat) :
  pollTimeoutRef w = Some id -> id <> 0%nat ->
  trim (input w) <> [] ->
  timers (step w Submit)
  = filter (fun t => negb (Nat.eqb (timerId t) id)) (timers w)
  /\ step (step w Submit) (Fire id) = step w Submit.
Proof.
  intros Href Hid Hin.
  rewrite (step_submit w (nonblank _ Hin)), Href.
  unfold clearedTimers.
  apply Nat.eqb_neq in Hid. rewrite Hid.
  split; [reflexivity |].
  unfold step. simpl timers. rewrite find_after_filter. reflexivity.
Qed.

(** ** Invariants of the logs *)

Lemma step_fire_found (w : World) (id : nat) (t : Timer) :
  find (fun t' => Nat.eqb (timerId t') id) (timers w) = Some t ->
  step w (Fire id) =
  let w1 :=
    with_now (N.max (now w) (due t))
      (with_timers
         (filter (fun t' => negb (Nat.eqb (timerId t') id)) (timers w)) w) in
  if 30 <? tRetries t then
    replied (JString timeoutText) [] (inflight w) w1
  else started (tMessageId t) (tRetries t) (inflight w) w1.
Proof.
  intros Hf. unfold step. rewrite Hf. unfold runTop.
  rewrite pollForResponse_eq. cbv zeta.
  destruct (30 <? tRetries t); reflexivity.
Qed.

(** Takes the world after a step apart into the cases of its
    definition. *)
Ltac step_cases :=
  unfold started, answered;
  repeat match goal with
         | |- context [match ?c with Normal _ => _ | Throw _ => _ end] =>
             destruct c
         | |- context [if stringifiable ?v then _ else _] =>
             destruct (stringifiable v)
         | |- context [if renderable ?v then _ else _] =>
             destruct (renderable v) eqn:?
         end.

(** Counts the user messages and the POSTs of a world given by its
    fields. *)
Ltac count_logs :=
  step_cases; unfold userMessages, submissions; simpl;
  rewrite ?filter_app, ?length_app; simpl; lia.

Lemma step_balance (w : World) (ev : Event) :
  (userMessages (step w ev) + submissions w
   = userMessages w + submissions (step w ev))%nat.
Proof.
  destruct ev as [value | | i result | id | dt].
  - reflexivity.
  - destruct (isEmpty (trim (input w))) eqn:Hb.
    + rewrite (step_submit_blank w Hb). reflexivity.
    + rewrite (step_submit w Hb). count_logs.
  - destruct (nth_error (inflight w) i) as [[req [| jid n]] |] eqn:Hi.
    + rewrite (step_settle_submit w i req result Hi).
      destruct (submissionResult result); count_logs.
    + rewrite (step_settle_poll w i req jid n result Hi).
      destruct (pollOutcome result); count_logs.
    + unfold step. rewrite Hi. reflexivity.
  - destruct (find (fun t' => Nat.eqb (timerId t') id) (timers w))
      as [t |] eqn:Hf.
    + rewrite (step_fire_found w id t Hf). cbv zeta.
      destruct (30 <? tRetries t); count_logs.
    + unfold step. rewrite Hf. reflexivity.
  - reflexivity.
Qed.

(** X14. Every user message in the log stands for exactly one POST, and
    every POST for one user message: over any events, in any order, the
    log gains as many user messages as POSTs are made; from the first
    render on the two numbers are equal. *)
Theorem one_post_per_user_message (w : World) (evs : list Event) :
  (userMessages (run w evs) + submissions w
   = userMessages w + submissions (run w evs))%nat
  /\ forall t0,
       userMessages (run (initialWorld t0) evs)
       = submissions (run (initialWorld t0) evs).
Proof.
  assert (Hgen : forall w0,
             (userMessages (run w0 evs) + submissions w0
              = userMessages w0 + submissions (run w0 evs))%nat).
  { induction evs as [| ev evs IH]; intros w0; simpl.
    - reflexivity.
    - pose proof (step_balance w0 ev). pose proof (IH (step w0 ev)). lia. }
  split; [apply Hgen |].
  intros t0. pose proof (Hgen (initialWorld t0)) as H.
  change (userMessages (initialWorld t0)) with 0%nat in H.
  change (submissions (initialWorld t0)) with 0%nat in H. lia.
Qed.

(** X13. The status endpoint is never asked before a message has been
    posted: whatever events occur from the first render on, the requests
    made so far, if any, begin with a POST. *)
Theorem first_request_is_a_post (t0 : N) (evs : list Event) :
  issued (run (initialWorld t0) evs) = []
  \/ exists body rest,
       issued (run (initialWorld t0) evs) = PostMessage body :: rest.
Proof.
  induction evs as [| ev evs IH] using rev_ind.
  - left. reflexivity.
  - unfold run in *. rewrite fold_left_app. simpl.
    set (w := fold_left step evs (initialWorld t0)) in *.
    destruct IH as [Hnone | (body & rest & Hsome)].
    + destruct (before_first_submission t0 evs Hnone) as (_ & Hi & Ht).
      unfold run in Hi, Ht. fold w in Hi, Ht.
      destruct ev as [value | | i result | id | dt].
      * left. exact Hnone.
      * destruct (isEmpty (trim (input w))) eqn:Hb.
        -- left. rewrite (step_submit_blank w Hb). exact Hnone.
        -- right. rewrite (step_submit w Hb). simpl. rewrite Hnone.
           eexists. eexists. reflexivity.
      * left. simpl. rewrite Hi. destruct i; exact Hnone.
      * left. simpl. rewrite Ht. exact Hnone.
      * left. exact Hnone.
    + right. destruct (step_grows w ev) as [_ [more Hmore]].
      rewrite Hmore, Hsome. eexists. eexists. reflexivity.
Qed.

(** ** Replies and requests *)

Lemma removeNth_length {A : Type} (l : list A) (i : nat) (x : A) :
  nth_error l i = Some x ->
  S (List.length (removeNth i l)) = List.length l.
Proof.
  intros H.
  assert (Hlt : (i < List.length l)%nat)
    by (apply nth_error_Some; rewrite H; discriminate).
  unfold removeNth. rewrite length_app, length_firstn, length_skipn. lia.
Qed.

Lemma clearedTimers_length (ref : option nat) (ts : list Timer) :
  (List.length (clearedTimers ref ts) <= List.length ts)%nat.
Proof.
  unfold clearedTimers.
  destruct ref as [id |]; [destruct (Nat.eqb id 0) |];
    auto using filter_length_le.
Qed.

Lemma fired_length (id : nat) (ts : list Timer) (t : Timer) :
  find (fun t' => Nat.eqb (timerId t') id) ts = Some t ->
  (S (List.length (filter (fun t' => negb (Nat.eqb (timerId t') id)) ts))
   <= List.length ts)%nat.
Proof.
  induction ts as [| a ts IH]; intros H; [discriminate |].
  simpl in *. destruct (Nat.eqb (timerId a) id); simpl.
  - pose proof (filter_length_le
                  (fun t' => negb (Nat.eqb (timerId t') id)) ts). lia.
  - specialize (IH H). lia.
Qed.

(** Sizes the logs and the queues of a world given by its fields. *)
Ltac size_world :=
  step_cases; unfold botMessages, outstanding, submissions; simpl;
  rewrite ?filter_app, ?length_app; simpl.

Lemma step_owes (w : World) (ev : Event) :
  (botMessages w + outstanding w <= 1 + submissions w)%nat ->
  (botMessages (step w ev) + outstanding (step w ev)
   <= 1 + submissions (step w ev))%nat.
Proof.
  intros Hinv. unfold botMessages, outstanding, submissions in Hinv.
  pose proof (clearedTimers_length (pollTimeoutRef w) (timers w)) as Hcl.
  destruct ev as [value | | i result | id | dt].
  - exact Hinv.
  - destruct (isEmpty (trim (input w))) eqn:Hb.
    + rewrite (step_submit_blank w Hb). exact Hinv.
    + rewrite (step_submit w Hb). size_world. lia.
  - destruct (nth_error (inflight w) i) as [[req [| jid n]] |] eqn:Hi.
    + pose proof (removeNth_length _ _ _ Hi) as Hrm.
      rewrite (step_settle_submit w i req result Hi).
      destruct (submissionResult result); size_world; lia.
    + pose proof (removeNth_length _ _ _ Hi) as Hrm.
      rewrite (step_settle_poll w i req jid n result Hi).
      destruct (pollOutcome result); size_world; lia.
    + unfold step. rewrite Hi. exact Hinv.
  - destruct (find (fun t' => Nat.eqb (timerId t') id) (timers w))
      as [t |] eqn:Hf.
    + pose proof (fired_length id (timers w) t Hf) as Hfl.
      pose proof (clearedTimers_length (pollTimeoutRef w)
                    (filter (fun t' => negb (Nat.eqb (timerId t') id))
                            (timers w))) as Hcl'.
      rewrite (step_fire_found w id t Hf). cbv zeta.
      destruct (30 <? tRetries t); size_world; lia.
    + unfold step. rewrite Hf. exact Hinv.
  - exact Hinv.
Qed.

(** X16. No reply without a submission.  From the first render on,
    whatever events occur and in whatever order, also when cycles overlap,
    the bot messages in the log other than the greeting, together with
    the fetches in flight and the timers pending, never outnumber the
    messages posted: counted over the whole log there is at most one
    reply per POST, and the replies fall short of the POSTs by at least
    the number of fetches and retries still pending. *)
Theorem replies_never_outnumber_submissions (t0 : N) (evs : list Event) :
  let w := run (initialWorld t0) evs in
  (botMessages w + outstanding w <= 1 + submissions w)%nat.
Proof.
  cbv zeta. induction evs as [| ev evs IH] using rev_ind.
  - simpl. unfold botMessages, outstanding, submissions. simpl. lia.
  - unfold run in *. rewrite fold_left_app. simpl.
    apply step_owes. exact IH.
Qed.

(** ** What React can render *)

Lemma presentable_app (ms : list Message) (m : Message) :
  Forall (fun m => renderable (content m) = true) ms ->
  renderable (content m) = true ->
  Forall (fun m => renderable (content m) = true) (ms ++ [m]).
Proof.
  intros Hms Hm. apply Forall_app. split; [exact Hms |].
  constructor; [exact Hm | constructor].
Qed.

Lemma step_presentable (w : World) (ev : Event) :
  presentable w -> presentable (step w ev).
Proof.
  unfold presentable. intros Hinv.
  destruct ev as [value | | i result | id | dt].
  - exact Hinv.
  - destruct (isEmpty (trim (input w))) eqn:Hb.
    + rewrite (step_submit_blank w Hb). exact Hinv.
    + rewrite (step_submit w Hb). simpl.
      apply presentable_app; [exact Hinv | reflexivity].
  - destruct (nth_error (inflight w) i) as [[req [| jid n]] |] eqn:Hi.
    + rewrite (step_settle_submit w i req result Hi).
      destruct (submissionResult result); step_cases; simpl;
        try exact Hinv;
        apply presentable_app; (exact Hinv || reflexivity).
    + rewrite (step_settle_poll w i req jid n result Hi).
      destruct (pollOutcome result); step_cases; simpl;
        try exact Hinv;
        apply presentable_app; (exact Hinv || reflexivity || assumption).
    + unfold step. rewrite Hi. exact Hinv.
  - destruct (find (fun t' => Nat.eqb (timerId t') id) (timers w))
      as [t |] eqn:Hf.
    + rewrite (step_fire_found w id t Hf). cbv zeta.
      destruct (30 <? tRetries t); step_cases; simpl;
        try exact Hinv;
        apply presentable_app; (exact Hinv || reflexivity).
    + unfold step. rewrite Hf. exact Hinv.
  - exact Hinv.
Qed.

(** The log never holds a message that React has not rendered: this is
    why [setMessages] looks at the new element only. *)
Lemma log_is_always_renderable (t0 : N) (evs : list Event) :
  presentable (run (initialWorld t0) evs).
Proof.
  induction evs as [| ev evs IH] using rev_ind.
  - unfold presentable. simpl. constructor; [reflexivity | constructor].
  - unfold run in *. rewrite fold_left_app. simpl.
    apply step_presentable. exact IH.
Qed.

(** X21. A final status answer whose reply is an object cannot be
    rendered: React throws while rendering the new message, outside the
    [try] of [pollForResponse].  Nothing is appended and the [catch] block
    logs nothing; React records the error and removes the component. *)
Theorem unrenderable_reply_is_not_appended (w : World) (i : nat)
  (req : Request) (id : JValue) (k : N) (r : Response) (c : JValue) :
  nth_error (inflight w) i = Some (mkSuspended req (PollK id k)) ->
  pollOutcome (Normal r) = Ready (Normal c) ->
  renderable c = false ->
  let w' := step w (Settle i (Normal r)) in
  messages w' = messages w
  /\ consoleErrors w' = consoleErrors w
  /\ renderErrors w' = renderErrors w ++ [invalidChild]
  /\ mounted w' = false
  /\ issued w' = issued w
  /\ delays w' = delays w
  /\ inflight w' = removeNth i (inflight w).
Proof.
  intros Hi Hout Hv. cbv zeta.
  rewrite (step_settle_poll w i req id k _ Hi), Hout.
  unfold answered, mounted. rewrite Hv. simpl. rewrite app_nil_r.
  destruct (renderErrors w); repeat split; reflexivity.
Qed.

(** ** A job identifier that is not a string *)

(** X20. A job identifier that cannot be converted to a string (an object
    with a [toString] entry, which JSON cannot make callable) makes the
    template literal of the status URL throw inside the [try] of
    [pollForResponse]: no status query is made, the [TypeError] is logged,
    and the log gains the user message and one bot message with the poll
    error text. *)
Theorem unprintable_job_id_is_a_poll_error (net : Network) (w : World)
  (id : JValue) :
  quiescent w = true -> trim (input w) <> [] ->
  submissionResult (answer net (issued (step w Submit))) = Deferred id ->
  stringifiable id = false ->
  exists w',
    ends_within net 1 (step w Submit) w'
    /\ messages w'
       = messages w ++ [mkMessage user (JString (input w)) (now w);
                        mkMessage bot (JString pollErrorText)
                                  (answeredAt net w)]
    /\ consoleErrors w' = consoleErrors w ++ [cannotConvert]
    /\ unhandled w' = unhandled w
    /\ pollAttempts w' = pollAttempts w
    /\ issued w' = issued w ++ [submission w]
    /\ delays w' = delays w
    /\ quiescent w' = true.
Proof.
  intros Hq Hin Hres Hstr.
  rewrite (step_submit_idle w Hq Hin) in Hres. simpl in Hres.
  destruct (cycle_without_poll net w (JString pollErrorText)
              [cannotConvert] Hq Hin)
    as (w' & He & Hm & Hi & Hd & Hc & Hu & _ & Hq' & _ & Hp).
  - intros w1 Hw1. rewrite (step_settle_submit_only w1 _ _ Hw1), Hres.
    unfold started. rewrite Hstr. reflexivity.
  - exists w'. repeat split; assumption.
Qed.

(** ** The error text *)

Lemma digits_inj (u : Decimal.uint) :
  forall v, digits u = digits v -> u = v.
Proof.
  induction u as [| u IH | u IH | u IH | u IH | u IH | u IH | u IH | u IH
                  | u IH | u IH];
    intros v H; destruct v; simpl in H; try discriminate;
    try reflexivity; injection H as H; f_equal; apply IH; exact H.
Qed.

Lemma digits_are_digits (u : Decimal.uint) :
  Forall (fun c => isDigit c = true) (digits u).
Proof.
  induction u; simpl; constructor; try reflexivity; assumption.
Qed.

Lemma digit_prefix_unique (d1 : jsstring) :
  forall (d2 r1 r2 : jsstring) (x y : N),
    Forall (fun c => isDigit c = true) d1 ->
    Forall (fun c => isDigit c = true) d2 ->
    isDigit x = false -> isDigit y = false ->
    d1 ++ x :: r1 = d2 ++ y :: r2 -> d1 = d2.
Proof.
  induction d1 as [| a d1 IH]; intros d2 r1 r2 x y H1 H2 Hx Hy Heq.
  - destruct d2 as [| b d2]; [reflexivity |].
    simpl in Heq. injection Heq as Hab _. subst b.
    inversion H2 as [| ? ? Hb _]. rewrite Hx in Hb. discriminate.
  - destruct d2 as [| b d2].
    + simpl in Heq. injection Heq as Hab _. subst a.
      inversion H1 as [| ? ? Ha _]. rewrite Hy in Ha. discriminate.
    + simpl in Heq. injection Heq as Hab Hrest. subst b. f_equal.
      inversion H1; inversion H2; subst.
      apply (IH d2 r1 r2 x y); assumption.
Qed.

(** X15. The status code can be read off the error text: two statuses
    give the same "Server error" message only if they are the same
    status. *)
Theorem error_message_determines_status (a b : N) :
  errorMessage a = errorMessage b <-> a = b.
Proof.
  split; [| intros ->; reflexivity].
  unfold errorMessage. intros H.
  apply app_inv_head in H.
  apply DecimalN.Unsigned.to_uint_inj. apply digits_inj.
  change (lit "): ") with (41 :: [58; 32]) in H.
  simpl in H.
  eapply digit_prefix_unique; [| | | | exact H];
    try apply digits_are_digits; reflexivity.
Qed.

(** ** The further properties at sample inputs *)

Lemma nonblank_submit_posts_raw_input_witness :
  messages (step (typed (lit " hi ")) Submit)
  = messages (typed (lit " hi "))
    ++ [mkMessage user (JString (lit " hi ")) 0]
  /\ (exists body,
        issued (step (typed (lit " hi ")) Submit) = [PostMessage body]
        /\ message body = lit " hi ").
Proof.
  destruct (nonblank_submit_posts_raw_input (typed (lit " hi ")))
    as (Hm & (body & Hi & Hb & _) & _).
  - vm_compute. right. left. reflexivity.
  - split; [exact Hm |]. exists body. split; [exact Hi | exact Hb].
Defined.

Lemma missing_job_id_fails_without_polling_witness :
  exists w',
    ends_within (answering emptyObject) 1 (step (typed (lit "hi")) Submit) w'
    /\ messages w'
       = messages (typed (lit "hi"))
         ++ [mkMessage user (JString (lit "hi")) 0;
             mkMessage bot (JString noMessageIdText) 120]
    /\ pollAttempts w' = 0%nat.
Proof.
  destruct (missing_job_id_fails_without_polling
              (answering emptyObject) (typed (lit "hi")) emptyObject
              (JObject []))
    as (w' & He & _ & Hm & _ & Hp & _).
  - reflexivity.
  - vm_compute. discriminate.
  - reflexivity.
  - reflexivity.
  - reflexivity.
  - reflexivity.
  - discriminate.
  - reflexivity.
  - exists w'. split; [exact He |]. split; [exact Hm | exact Hp].
Defined.

Lemma falsy_job_id_is_no_job_id_witness :
  exists w',
    ends_within (answering emptyJobId) 1 (step (typed (lit "hi")) Submit) w'
    /\ messages w'
       = messages (typed (lit "hi"))
         ++ [mkMessage user (JString (lit "hi")) 0;
             mkMessage bot (JString noMessageIdText) 120]
    /\ pollAttempts w' = 0%nat.
Proof.
  destruct (falsy_job_id_is_no_job_id
              (answering emptyJobId) (typed (lit "hi")) emptyJobId
              (JObject [(lit "messageId", JString [])]) (JString []))
    as (w' & He & Hm & _ & Hp & _).
  - vm_compute; reflexivity.
  - vm_compute; discriminate.
  - vm_compute; reflexivity.
  - vm_compute; reflexivity.
  - vm_compute; reflexivity.
  - vm_compute; reflexivity.
  - vm_compute; reflexivity.
  - vm_compute; reflexivity.
  - exists w'. split; [exact He |]. split; [exact Hm | exact Hp].
Defined.

Lemma submission_exception_is_surfaced_witness :
  exists w',
    ends_within unreachable 1 (step (typed (lit "hi")) Submit) w'
    /\ messages w'
       = messages (typed (lit "hi"))
         ++ [mkMessage user (JString (lit "hi")) 0;
             mkMessage bot (JString (lit "Failed to fetch")) 5]
    /\ consoleErrors w' = [ErrorObj (lit "Failed to fetch")]
    /\ pollAttempts w' = 0%nat.
Proof.
  destruct (submission_exception_is_surfaced
              unreachable (typed (lit "hi")) (ErrorObj (lit "Failed to fetch")))
    as (w' & He & Hm & Hc & _ & Hp & _).
  - vm_compute; reflexivity.
  - vm_compute; discriminate.
  - left. vm_compute; reflexivity.
  - exists w'. repeat split; assumption.
Defined.

Lemma reply_after_retries_witness :
  exists w' t,
    ends_within (scripted 5 (Normal finished)) 13
      (step (typed (lit "hi")) Submit) w'
    /\ messages w'
       = messages (typed (lit "hi"))
         ++ [mkMessage user (JString (lit "hi")) 0;
             mkMessage bot (JString (lit "Hello!")) t]
    /\ pollAttempts w' = 6%nat
    /\ delays w' = repeat 1000 5.
Proof.
  destruct (reply_after_retries
              (scripted 5 (Normal finished)) (typed (lit "hi")) accepted
              (JObject [(lit "messageId", job1)]) job1 5
              (JString (lit "Hello!")))
    as (w' & t & He & Hm & _ & Hp & Hd & _).
  - vm_compute; reflexivity.
  - vm_compute; discriminate.
  - vm_compute; reflexivity.
  - vm_compute; reflexivity.
  - vm_compute; reflexivity.
  - vm_compute; reflexivity.
  - vm_compute; reflexivity.
  - vm_compute; reflexivity.
  - vm_compute; reflexivity.
  - lia.
  - intros i Hi.
    do 5 (destruct i as [| i];
          [exists inProgress; split; vm_compute; reflexivity |]).
    lia.
  - vm_compute; reflexivity.
  - vm_compute; reflexivity.
  - exists w', t. repeat split; assumption.
Defined.

Lemma poll_failure_is_not_retried_witness :
  exists w' t,
    ends_within (scripted 2 (Throw (ErrorObj (lit "Failed to fetch")))) 7
      (step (typed (lit "hi")) Submit) w'
    /\ messages w'
       = messages (typed (lit "hi"))
         ++ [mkMessage user (JString (lit "hi")) 0;
             mkMessage bot (JString pollErrorText) t]
    /\ pollAttempts w' = 3%nat
    /\ consoleErrors w' = [ErrorObj (lit "Failed to fetch")].
Proof.
  destruct (poll_failure_is_not_retried
              (scripted 2 (Throw (ErrorObj (lit "Failed to fetch"))))
              (typed (lit "hi")) accepted
              (JObject [(lit "messageId", job1)]) job1 2
              (ErrorObj (lit "Failed to fetch")))
    as (w' & t & He & Hm & _ & Hp & _ & Hc & _).
  - vm_compute; reflexivity.
  - vm_compute; discriminate.
  - vm_compute; reflexivity.
  - vm_compute; reflexivity.
  - vm_compute; reflexivity.
  - vm_compute; reflexivity.
  - vm_compute; reflexivity.
  - vm_compute; reflexivity.
  - vm_compute; reflexivity.
  - lia.
  - intros i Hi.
    do 2 (destruct i as [| i];
          [exists inProgress; split; vm_compute; reflexivity |]).
    lia.
  - left. vm_compute; reflexivity.
  - exists w', t. repeat split; assumption.
Defined.

Lemma poll_ceiling_for_any_network_witness :
  exists w',
    ends_within (scripted 31 (Normal finished)) 63
      (step (typed (lit "hi")) Submit) w'
    /\ issued w'
       = submission (typed (lit "hi")) :: repeat (GetStatus job1) 31
    /\ pollAttempts w' = 31%nat
    /\ delays w' = repeat 1000 31.
Proof.
  destruct (poll_ceiling_for_any_network
              (scripted 31 (Normal finished)) (typed (lit "hi")) job1)
    as (w' & q & d & He & Hq & _ & Hl & Hi & Hp & Hd).
  - vm_compute; reflexivity.
  - vm_compute; discriminate.
  - vm_compute; reflexivity.
  - vm_compute; reflexivity.
  - do 30 (destruct q as [| q];
           [vm_compute in Hl; destruct Hl as [Hl _]; discriminate Hl |]).
    destruct q as [| q]; [| lia].
    vm_compute in Hl. destruct Hl as [_ ->].
    exists w'. split; [exact He |]. split; [exact Hi |].
    split; [exact Hp | exact Hd].
Defined.

Lemma missing_content_falls_back_witness :
  pollOutcome (Normal emptyObject) = Ready (Normal (JString fallbackText))
  /\ messages (step pollingWorld (Settle 0 (Normal emptyObject)))
     = messages pollingWorld ++ [mkMessage bot (JString fallbackText) 0]
  /\ consoleErrors (step pollingWorld (Settle 0 (Normal emptyObject))) = [].
Proof.
  destruct (missing_content_falls_back pollingWorld 0 (GetStatus job1) job1 0
              emptyObject (JObject []))
    as (Ho & Hm & Hc & _).
  - reflexivity.
  - discriminate.
  - reflexivity.
  - reflexivity.
  - discriminate.
  - reflexivity.
  - split; [exact Ho |]. split; [exact Hm | exact Hc].
Defined.

Lemma plain_text_status_answer_is_the_reply_witness :
  messages (step pollingWorld (Settle 0 (Normal serviceUnavailable)))
  = messages pollingWorld
    ++ [mkMessage bot (JString (lit "Service Unavailable")) 0]
  /\ consoleErrors (step pollingWorld (Settle 0 (Normal serviceUnavailable)))
     = [].
Proof.
  destruct (plain_text_status_answer_is_the_reply pollingWorld 0
              (GetStatus job1) job1 0 serviceUnavailable
              (lit "Service Unavailable"))
    as (Hm & Hc & _).
  - vm_compute; reflexivity.
  - vm_compute; discriminate.
  - vm_compute; reflexivity.
  - vm_compute; reflexivity.
  - split; [exact Hm | exact Hc].
Defined.

Lemma json_status_answer_content_is_the_reply_witness :
  messages (step pollingWorld (Settle 0 (Normal finished)))
  = messages pollingWorld ++ [mkMessage bot (JString (lit "Hello!")) 0].
Proof.
  destruct (json_status_answer_content_is_the_reply pollingWorld 0
              (GetStatus job1) job1 0 finished
              (JObject [(lit "response",
                         JObject [(lit "content", JString (lit "Hello!"))])])
              (JString (lit "Hello!")))
    as (Hm & _).
  - vm_compute; reflexivity.
  - vm_compute; discriminate.
  - vm_compute; reflexivity.
  - vm_compute; reflexivity.
  - vm_compute; reflexivity.
  - vm_compute; reflexivity.
  - vm_compute; reflexivity.
  - exact Hm.
Defined.

Lemma in_progress_answer_schedules_one_retry_witness :
  timers (step pollingWorld (Settle 0 (Normal inProgress)))
  = [mkTimer 1 1000 job1 1]
  /\ isTyping pollingWorld = true
  /\ isTyping (step pollingWorld (Settle 0 (Normal inProgress))) = false.
Proof.
  destruct (in_progress_answer_schedules_one_retry pollingWorld 0
              (GetStatus job1) job1 0 inProgress)
    as (_ & _ & Ht & _ & _ & _ & Hty).
  - vm_compute; reflexivity.
  - vm_compute; reflexivity.
  - split; [exact Ht |]. split; [vm_compute; reflexivity | exact Hty].
Defined.

Lemma submit_cancels_pending_retry_witness :
  timers retryingWorld = [mkTimer 1 1000 job1 1]
  /\ timers (step retryingWorld Submit) = []
  /\ step (step retryingWorld Submit) (Fire 1) = step retryingWorld Submit.
Proof.
  destruct (submit_cancels_pending_retry retryingWorld 1) as (Ht & Hf).
  - vm_compute; reflexivity.
  - discriminate.
  - vm_compute; discriminate.
  - split; [vm_compute; reflexivity |]. split; [| exact Hf].
    rewrite Ht. vm_compute. reflexivity.
Defined.



Lemma unprintable_job_id_is_a_poll_error_witness :
  exists w',
    ends_within (answering acceptedBadJob) 1
      (step (typed (lit "hi")) Submit) w'
    /\ messages w'
       = messages (typed (lit "hi"))
         ++ [mkMessage user (JString (lit "hi")) 0;
             mkMessage bot (JString pollErrorText) 120]
    /\ consoleErrors w' = [cannotConvert]
    /\ pollAttempts w' = 0%nat.
Proof.
  destruct (unprintable_job_id_is_a_poll_error
              (answering acceptedBadJob) (typed (lit "hi")) badJob)
    as (w' & He & Hm & Hc & _ & Hp & _).
  - vm_compute; reflexivity.
  - vm_compute; discriminate.
  - vm_compute; reflexivity.
  - vm_compute; reflexivity.
  - exists w'. repeat split; assumption.
Defined.

Lemma unrenderable_reply_is_not_appended_witness :
  messages (step pollingWorld (Settle 0 (Normal finishedObject)))
  = messages pollingWorld
  /\ consoleErrors (step pollingWorld (Settle 0 (Normal finishedObject))) = []
  /\ renderErrors (step pollingWorld (Settle 0 (Normal finishedObject)))
     = [invalidChild]
  /\ mounted (step pollingWorld (Settle 0 (Normal finishedObject))) = false.
Proof.
  destruct (unrenderable_reply_is_not_appended pollingWorld 0
              (GetStatus job1) job1 0 finishedObject objectContent)
    as (Hm & Hc & Hre & Hmo & _).
  - vm_compute; reflexivity.
  - vm_compute; reflexivity.
  - vm_compute; reflexivity.
  - split; [exact Hm |]. split; [exact Hc |]. split; [exact Hre | exact Hmo].
Defined.
